(** * The pipeline driver [go] of src/main.py

    [go] reads a Hydra/OmegaConf configuration, exports two environment
    variables, computes the list of active steps and then, inside a temporary
    directory, walks through six [if "<step>" in active_steps] blocks, each of
    which builds the arguments of one [mlflow.run] call and dispatches it.

    The embedding is shallow: configuration nodes are a small inductive type,
    [os.environ] is a finite map, everything [go] does to the outside world
    (environment assignments, the temporary directory, the JSON file, the
    external runs) is appended to an event log, and Python exceptions are an
    error result that keeps the state reached so far. *)

From Stdlib Require Import ZArith Ascii String.
From Stdlib Require Import Floats.SpecFloat.
From stdpp Require Import base option list strings gmap.

Local Open Scope string_scope.
Local Open Scope list_scope.

(** ** Configuration values (OmegaConf nodes) *)

#[warnings="-register-all"] Inductive value : Type :=
  | VNone
  | VBool (b : bool)
  | VInt (z : Z)
  | VFloat (f : spec_float)
  | VStr (s : string)
  | VList (l : list value)
  | VDict (items : list (string * value)).

(** The Python exceptions the driver can meet. *)
Inductive exn : Type :=
  | KeyError (key : string)
  | TypeError
  | AttributeError
  | ValueError
  | MissingMandatoryValue
  | ExecutionException.

Inductive result (A : Type) : Type :=
  | Ok (a : A)
  | Raise (e : exn).
Arguments Ok {A} a.
Arguments Raise {A} e.

#[global] Instance result_ret : MRet result := fun A a => Ok a.
#[global] Instance result_bind : MBind result := fun A B f r =>
  match r with
  | Ok a => f a
  | Raise e => Raise e
  end.

Definition is_ok {A} (r : result A) : bool :=
  match r with Ok _ => true | Raise _ => false end.

(** A keyword dictionary literal [{"k": v, ...}]: insertion ordered. *)
Abbreviation pydict := (list (string * value)).

Fixpoint dict_get (k : string) (d : pydict) : option value :=
  match d with
  | [] => None
  | (k', v) :: d' => if String.eqb k k' then Some v else dict_get k d'
  end.

(** OmegaConf's marker of a mandatory value that was not given: the string
    ["???"]. *)
Definition is_missing (v : value) : bool :=
  match v with
  | VStr s => String.eqb s "???"
  | _ => false
  end.

(** [node[k]]: subscription of a configuration node by a string key.  On a
    dictionary node a key that is absent raises [KeyError] (OmegaConf's
    [ConfigKeyError] is a [KeyError]) and a value left at the marker ["???"]
    raises [MissingMandatoryValue]; a list node refuses a string key with
    [KeyValidationError], a [ValueError]; any other value cannot be
    subscripted by a string. *)
Definition getitem (node : value) (k : string) : result value :=
  match node with
  | VDict items =>
      match dict_get k items with
      | Some v => if is_missing v then Raise MissingMandatoryValue else Ok v
      | None => Raise (KeyError k)
      end
  | VList _ => Raise ValueError
  | _ => Raise TypeError
  end.

(** [config[sec][key]], the only way [go] reads its configuration. *)
Definition cfg (config : value) (sec key : string) : result value :=
  node ← getitem config sec; getitem node key.

(** [node.items()] followed by [dict(...)]: only dictionary nodes have it,
    and it reads every value, so a value left at ["???"] raises. *)
Definition py_items (node : value) : result pydict :=
  match node with
  | VDict items =>
      if existsb (fun kv => is_missing kv.2) items
      then Raise MissingMandatoryValue
      else Ok items
  | _ => Raise AttributeError
  end.

(** What [json.dump] accepts as a dictionary value here: scalars.  Nested
    configuration nodes are not JSON serialisable. *)
Definition json_scalar (v : value) : bool :=
  match v with
  | VList _ | VDict _ => false
  | _ => true
  end.

(** ** Strings and paths *)

(** [s.split(sep)] for a one-character separator: no trimming, empty fields
    kept, and the empty string splits into one empty field. *)
Fixpoint split (sep : ascii) (s : string) : list string :=
  match s with
  | EmptyString => [EmptyString]
  | String c rest =>
      if Ascii.eqb c sep then EmptyString :: split sep rest
      else match split sep rest with
           | [] => [String c EmptyString]
           | field :: fields => String c field :: fields
           end
  end.

Definition comma : ascii := "," % char.

(** [x in l] on a list of strings. *)
Definition py_in (x : string) (l : list string) : bool := bool_decide (x ∈ l).

Definition startswith_sep (s : string) : bool :=
  match s with
  | String c _ => Ascii.eqb c "/"
  | EmptyString => false
  end.

Fixpoint endswith_sep (s : string) : bool :=
  match s with
  | EmptyString => false
  | String c EmptyString => Ascii.eqb c "/"
  | String _ rest => endswith_sep rest
  end.

(** One round of the loop of [posixpath.join]. *)
Definition join_step (path b : string) : string :=
  if startswith_sep b then b
  else if String.eqb path "" || endswith_sep path then path +:+ b
  else path +:+ "/" +:+ b.

(** [os.path.join(a, *p)]. *)
Definition os_path_join (a : string) (p : list string) : string :=
  fold_left join_step p a.

Fixpoint has_nul (s : string) : bool :=
  match s with
  | EmptyString => false
  | String c rest => Ascii.eqb c zero || has_nul rest
  end.

(** ** The world the driver acts on *)

(** The positional and keyword arguments of one [mlflow.run] call. *)
Record run_call : Type := RunCall {
  uri : string;
  entry_point : string;
  parameters : pydict
}.

Inductive event : Type :=
  | SetEnv (name val : string)
  | MkTemp (dir : string)
  | RmTemp (dir : string)
  | OpenW (path : string)
  | JsonDump (path : string) (doc : pydict)
  | MlflowRun (c : run_call).

Record world : Type := World {
  environ : gmap string string;
  original_cwd : string;   (* hydra.utils.get_original_cwd() *)
  getcwd : string;         (* os.getcwd(): absolute and normalised *)
  log : list event
}.

(** [record w evs]: the world after the events [evs] happened in [w]. *)
Definition record (w : world) (evs : list event) : world :=
  World (environ w) (original_cwd w) (getcwd w) (log w ++ evs).

(** Exceptions keep the state changes made before they were raised. *)
Definition M (A : Type) : Type := world → result A * world.

#[global] Instance M_ret : MRet M := fun A a w => (Ok a, w).
#[global] Instance M_bind : MBind M := fun A B f m w =>
  match m w with
  | (Ok a, w') => f a w'
  | (Raise e, w') => (Raise e, w')
  end.

Definition raise {A} (e : exn) : M A := fun w => (Raise e, w).

Definition lift {A} (r : result A) : M A := fun w => (r, w).

Definition emit (e : event) : M unit := fun w => (Ok tt, record w [e]).

Definition when (b : bool) (m : M unit) : M unit :=
  if b then m else mret tt.

(** [os.environ[name] = v]: the value must be a [str] without NUL. *)
Definition environ_setitem (name : string) (v : value) : M unit :=
  match v with
  | VStr s =>
      if has_nul s then raise ValueError
      else fun w =>
        (Ok tt, World (<[name := s]> (environ w)) (original_cwd w) (getcwd w)
                      (log w ++ [SetEnv name s]))
  | _ => raise TypeError
  end.

Definition get_original_cwd : M string := fun w => (Ok (original_cwd w), w).

(** [os.path.abspath(p)] for a relative [p]: [normpath(join(getcwd(), p))],
    and [normpath] has nothing to do since [getcwd()] is normalised and [p]
    is a plain file name. *)
Definition os_path_abspath (p : string) : M string := fun w =>
  (Ok (os_path_join (getcwd w) [p]), w).

(** [json.dump(doc, fp)] on the file opened at [path]. *)
Definition json_dump (doc : pydict) (path : string) : M unit :=
  if forallb (fun kv => json_scalar kv.2) doc then emit (JsonDump path doc)
  else raise TypeError.

(** ** The driver *)

Definition _steps : list string :=
  [ "download";
    "basic_cleaning";
    "data_check";
    "data_split";
    "train_random_forest" ].

(** Three things are decided outside the driver: how Python prints a
    configuration node that is not a string inside an f-string, whether an
    external run returns or raises (it may depend on everything that happened
    so far), and the name [tempfile] picks. *)
Class Externals : Type := {
  py_str : value → string;
  mlflow_returns : world → run_call → bool;
  mkdtemp : world → string
}.

Section driver.

Context {ext : Externals}.

(** [f"{v}"]. *)
Definition format_field (v : value) : string :=
  match v with
  | VStr s => s
  | _ => py_str v
  end.

(** [mlflow.run(uri, entry_point, parameters=...)]: synchronous; a failed
    run raises in the driver. *)
Definition mlflow_run (c : run_call) : M unit := fun w =>
  let w' := record w [MlflowRun c] in
  if mlflow_returns w c then (Ok tt, w') else (Raise ExecutionException, w').

(** [with tempfile.TemporaryDirectory() as tmp_dir: body]: the directory is
    removed on the way out, also when [body] raises. *)
Definition with_TemporaryDirectory (body : string → M unit) : M unit :=
  fun w =>
    let tmp_dir := mkdtemp w in
    match emit (MkTemp tmp_dir) w with
    | (_, w1) =>
        match body tmp_dir w1 with
        | (r, w2) => (r, (emit (RmTemp tmp_dir) w2).2)
        end
    end.

(** *** The argument lists of the six calls *)

Definition download_call (config : value) : result run_call :=
  repo ← cfg config "main" "components_repository";
  sample ← cfg config "etl" "sample";
  mret (RunCall (format_field repo +:+ "/get_data") "main"
    [ ("sample", sample);
      ("artifact_name", VStr "sample.csv");
      ("artifact_type", VStr "raw_data");
      ("artifact_description", VStr "Raw file as downloaded") ]).

Definition basic_cleaning_call (config : value) (ocwd : string)
  : result run_call :=
  min_price ← cfg config "etl" "min_price";
  max_price ← cfg config "etl" "max_price";
  mret (RunCall (os_path_join ocwd ["src"; "basic_cleaning"]) "main"
    [ ("input_artifact", VStr "sample.csv:latest");
      ("output_artifact", VStr "clean_sample.csv");
      ("output_type", VStr "clean_sample");
      ("output_description",
         VStr "Data with outliers and null values removed");
      ("min_price", min_price);
      ("max_price", max_price) ]).

Definition data_check_call (config : value) (ocwd : string)
  : result run_call :=
  kl_threshold ← cfg config "data_check" "kl_threshold";
  min_price ← cfg config "etl" "min_price";
  max_price ← cfg config "etl" "max_price";
  mret (RunCall (os_path_join ocwd ["src"; "data_check"]) "main"
    [ ("csv", VStr "clean_sample.csv:latest");
      ("ref", VStr "clean_sample.csv:reference");
      ("kl_threshold", kl_threshold);
      ("min_price", min_price);
      ("max_price", max_price) ]).

Definition data_split_call (config : value) : result run_call :=
  repo ← cfg config "main" "components_repository";
  test_size ← cfg config "modeling" "test_size";
  random_seed ← cfg config "modeling" "random_seed";
  stratify_by ← cfg config "modeling" "stratify_by";
  mret (RunCall (format_field repo +:+ "/train_val_test_split") "main"
    [ ("input", VStr "clean_sample.csv:latest");
      ("test_size", test_size);
      ("random_seed", random_seed);
      ("stratify_by", stratify_by) ]).

Definition train_random_forest_call
    (config : value) (ocwd rf_config : string) : result run_call :=
  val_size ← cfg config "modeling" "val_size";
  random_seed ← cfg config "modeling" "random_seed";
  stratify_by ← cfg config "modeling" "stratify_by";
  max_tfidf_features ← cfg config "modeling" "max_tfidf_features";
  mret (RunCall (os_path_join ocwd ["src"; "train_random_forest"]) "main"
    [ ("trainval_artifact", VStr "trainval_data.csv:latest");
      ("val_size", val_size);
      ("random_seed", random_seed);
      ("stratify_by", stratify_by);
      ("rf_config", VStr rf_config);
      ("max_tfidf_features", max_tfidf_features);
      ("output_artifact", VStr "random_forest_export") ]).

Definition test_regression_model_call (config : value) : result run_call :=
  repo ← cfg config "main" "components_repository";
  mret (RunCall (format_field repo +:+ "/test_regression_model") "main"
    [ ("mlflow_model", VStr "random_forest_export:prod");
      ("test_dataset", VStr "test_data.csv:latest") ]).

(** *** The bodies of the six [if] blocks

    (The first statement inside the [with] block of the source is a bare
    string literal holding an older, local download call; it has no
    effect.) *)

Definition download (config : value) : M unit :=
  c ← lift (download_call config);
  mlflow_run c.

Definition basic_cleaning (config : value) : M unit :=
  ocwd ← get_original_cwd;
  c ← lift (basic_cleaning_call config ocwd);
  mlflow_run c.

Definition data_check (config : value) : M unit :=
  ocwd ← get_original_cwd;
  c ← lift (data_check_call config ocwd);
  mlflow_run c.

Definition data_split (config : value) : M unit :=
  c ← lift (data_split_call config);
  mlflow_run c.

Definition train_random_forest (config : value) : M unit :=
  rf_config ← os_path_abspath "rf_config.json";
  emit (OpenW rf_config);;
  rf ← lift (cfg config "modeling" "random_forest");
  doc ← lift (py_items rf);
  json_dump doc rf_config;;
  ocwd ← get_original_cwd;
  c ← lift (train_random_forest_call config ocwd rf_config);
  mlflow_run c.

Definition test_regression_model (config : value) : M unit :=
  c ← lift (test_regression_model_call config);
  mlflow_run c.

(** [steps_par.split(",") if steps_par != "all" else _steps]. *)
Definition active_steps_of (steps_par : value) : result (list string) :=
  match steps_par with
  | VStr s => if String.eqb s "all" then Ok _steps else Ok (split comma s)
  | _ => Raise AttributeError
  end.

Definition go_steps (config : value) (active_steps : list string) : M unit :=
  when (py_in "download" active_steps) (download config);;
  when (py_in "basic_cleaning" active_steps) (basic_cleaning config);;
  when (py_in "data_check" active_steps) (data_check config);;
  when (py_in "data_split" active_steps) (data_split config);;
  when (py_in "train_random_forest" active_steps)
       (train_random_forest config);;
  when (py_in "test_regression_model" active_steps)
       (test_regression_model config).

Definition go (config : value) : M unit :=
  project_name ← lift (cfg config "main" "project_name");
  environ_setitem "WANDB_PROJECT" project_name;;
  experiment_name ← lift (cfg config "main" "experiment_name");
  environ_setitem "WANDB_RUN_GROUP" experiment_name;;
  steps_par ← lift (cfg config "main" "steps");
  active_steps ← lift (active_steps_of steps_par);
  with_TemporaryDirectory (fun tmp_dir => go_steps config active_steps).

(** ** Vocabulary of the properties *)

Inductive step : Type :=
  | Download
  | BasicCleaning
  | DataCheck
  | DataSplit
  | TrainRandomForest
  | TestRegressionModel.

Definition step_name (st : step) : string :=
  match st with
  | Download => "download"
  | BasicCleaning => "basic_cleaning"
  | DataCheck => "data_check"
  | DataSplit => "data_split"
  | TrainRandomForest => "train_random_forest"
  | TestRegressionModel => "test_regression_model"
  end.

(** The six [if] blocks in the order of the source text. *)
Definition pipeline : list step :=
  [Download; BasicCleaning; DataCheck; DataSplit; TrainRandomForest;
   TestRegressionModel].

Definition step_body (st : step) (config : value) : M unit :=
  match st with
  | Download => download config
  | BasicCleaning => basic_cleaning config
  | DataCheck => data_check config
  | DataSplit => data_split config
  | TrainRandomForest => train_random_forest config
  | TestRegressionModel => test_regression_model config
  end.

(** The arguments the block of [st] passes to [mlflow.run] in world [w]. *)
Definition call_of (st : step) (config : value) (w : world)
  : result run_call :=
  match st with
  | Download => download_call config
  | BasicCleaning => basic_cleaning_call config (original_cwd w)
  | DataCheck => data_check_call config (original_cwd w)
  | DataSplit => data_split_call config
  | TrainRandomForest =>
      train_random_forest_call config (original_cwd w)
        (os_path_join (getcwd w) ["rf_config.json"])
  | TestRegressionModel => test_regression_model_call config
  end.

(** [go_steps] as a loop over a list of blocks. *)
Fixpoint run_steps (config : value) (active_steps : list string)
    (sts : list step) : M unit :=
  match sts with
  | [] => mret tt
  | st :: rest =>
      when (py_in (step_name st) active_steps) (step_body st config);;
      run_steps config active_steps rest
  end.

Definition runs_of (evs : list event) : list run_call :=
  omap (fun e => match e with MlflowRun c => Some c | _ => None end) evs.

(** The events of one execution of [go] started in [w], and its run
    dispatches in the order they were made. *)
Definition trace (config : value) (w : world) : list event :=
  drop (length (log w)) (log (go config w).2).

Definition dispatched (config : value) (w : world) : list run_call :=
  runs_of (trace config w).

(** [go] returned without an exception. *)
Definition returns (config : value) (w : world) : Prop :=
  is_ok (go config w).1 = true.

(** The step [st] had its run dispatched. *)
Definition step_dispatched (st : step) (config : value) (w : world) : Prop :=
  ∃ c, call_of st config w = Ok c ∧ c ∈ dispatched config w.

Definition active_of (config : value) : result (list string) :=
  steps_par ← cfg config "main" "steps"; active_steps_of steps_par.

(** The blocks whose condition holds, in source order. *)
Definition plan (config : value) : list step :=
  match active_of config with
  | Ok active_steps =>
      filter (fun st => step_name st ∈ active_steps) pipeline
  | Raise _ => []
  end.

(** No environment assignment among the events. *)
Definition no_setenv (evs : list event) : Prop := ∀ k v, SetEnv k v ∉ evs.

(** What one block leaves behind: it only appends events, never an
    environment assignment, and either it raised before dispatching or it
    dispatched exactly the call of its step. *)
Definition step_post (st : step) (config : value) (w : world)
    (out : result unit * world) : Prop :=
  ∃ evs, out.2 = record w evs ∧ no_setenv evs ∧
    ((runs_of evs = [] ∧ is_ok out.1 = false) ∨
     (∃ c, call_of st config w = Ok c ∧ runs_of evs = [c])).

(** The location is a component of the components repository. *)
Definition in_components_repository (config : value) (c : run_call)
  : Prop :=
  ∃ repo component,
    cfg config "main" "components_repository" = Ok repo ∧
    uri c = format_field repo +:+ "/" +:+ component.

End driver.

(** ** Further vocabulary *)

(** The world after the two environment assignments of [go]. *)
Definition after_env (w : world) (p e : string) : world :=
  World (<["WANDB_RUN_GROUP" := e]> (<["WANDB_PROJECT" := p]> (environ w)))
        (original_cwd w) (getcwd w)
        (log w ++ [SetEnv "WANDB_PROJECT" p; SetEnv "WANDB_RUN_GROUP" e]).

(** Both values exported to the environment are NUL-free strings. *)
Definition env_ready (config : value) (p e : string) : Prop :=
  cfg config "main" "project_name" = Ok (VStr p) ∧ has_nul p = false ∧
  cfg config "main" "experiment_name" = Ok (VStr e) ∧ has_nul e = false.

(** The blocks of [sts] whose name is in [active_steps]. *)
Definition selected (active_steps : list string) (sts : list step)
  : list step :=
  filter (fun st => step_name st ∈ active_steps) sts.

Definition param (c : run_call) (k : string) : option value :=
  dict_get k (parameters c).

(** The string literals that occur as values in the six parameter
    dictionaries of the source. *)
Definition parameter_literals : list string :=
  [ "sample.csv"; "raw_data"; "Raw file as downloaded";
    "sample.csv:latest"; "clean_sample.csv"; "clean_sample";
    "Data with outliers and null values removed";
    "clean_sample.csv:latest"; "clean_sample.csv:reference";
    "trainval_data.csv:latest"; "random_forest_export";
    "random_forest_export:prod"; "test_data.csv:latest" ].

Definition is_literal (v : value) : Prop :=
  ∃ s, v = VStr s ∧ s ∈ parameter_literals.

Definition read_from_config (config : value) (v : value) : Prop :=
  ∃ sec key, cfg config sec key = Ok v.

(** Two configurations that agree everywhere except on [main.steps]. *)
Definition same_but_steps (config1 config2 : value) : Prop :=
  ∀ sec key, (sec, key) ≠ ("main", "steps") →
    cfg config1 sec key = cfg config2 sec key.

(** ** Sample inputs *)

(** The floating-point number 0.25. *)
Definition quarter : spec_float := S754_finite false 1 (-2).

Definition sample_config (steps : string) : value :=
  VDict
    [ ("main", VDict
        [ ("components_repository",
             VStr "https://github.com/udacity/build-ml-pipeline#components");
          ("project_name", VStr "nyc_airbnb");
          ("experiment_name", VStr "development");
          ("steps", VStr steps) ]);
      ("etl", VDict
        [ ("sample", VStr "sample1.csv");
          ("min_price", VInt 10);
          ("max_price", VInt 350) ]);
      ("data_check", VDict [ ("kl_threshold", VFloat quarter) ]);
      ("modeling", VDict
        [ ("test_size", VFloat quarter);
          ("val_size", VFloat quarter);
          ("random_seed", VInt 42);
          ("stratify_by", VStr "neighbourhood_group");
          ("max_tfidf_features", VInt 5);
          ("random_forest", VDict
             [ ("n_estimators", VInt 100);
               ("max_depth", VInt 15);
               ("oob_score", VBool true) ]) ]) ].

Definition sample_world : world :=
  World ∅ "/home/u/pipeline" "/home/u/pipeline/outputs/2026-01-01/10-00-00" [].

(** The same launch directory, a later Hydra output directory. *)
Definition later_world : world :=
  World ∅ "/home/u/pipeline" "/home/u/pipeline/outputs/2026-01-02/11-30-00" [].

Definition sample_ext : Externals :=
  {| py_str := fun v => match v with VNone => "None" | _ => "<node>" end;
     mlflow_returns := fun _ _ => true;
     mkdtemp := fun _ => "/tmp/tmpq1w2e3" |}.

Definition other_ext : Externals :=
  {| py_str := fun v => match v with VNone => "None" | _ => "<node>" end;
     mlflow_returns := fun _ _ => true;
     mkdtemp := fun w => "/tmp/tmp" +:+ getcwd w |}.

Definition busy_world : world :=
  World {[ "HOME" := "/home/u" ]} "/home/u/pipeline"
        "/home/u/pipeline/outputs/2026-01-01/10-00-00"
        [SetEnv "HOME" "/home/u"].

(** An external platform on which every run fails. *)
Definition failing_ext : Externals :=
  {| py_str := fun v => match v with VNone => "None" | _ => "<node>" end;
     mlflow_returns := fun _ _ => false;
     mkdtemp := fun _ => "/tmp/tmpq1w2e3" |}.

Definition sample_basic_cleaning_call : run_call :=
  RunCall "/home/u/pipeline/src/basic_cleaning" "main"
    [ ("input_artifact", VStr "sample.csv:latest");
      ("output_artifact", VStr "clean_sample.csv");
      ("output_type", VStr "clean_sample");
      ("output_description",
         VStr "Data with outliers and null values removed");
      ("min_price", VInt 10);
      ("max_price", VInt 350) ].

Definition sample_rf_config : string :=
  "/home/u/pipeline/outputs/2026-01-01/10-00-00/rf_config.json".

Definition sample_train_call : run_call :=
  RunCall "/home/u/pipeline/src/train_random_forest" "main"
    [ ("trainval_artifact", VStr "trainval_data.csv:latest");
      ("val_size", VFloat quarter);
      ("random_seed", VInt 42);
      ("stratify_by", VStr "neighbourhood_group");
      ("rf_config", VStr sample_rf_config);
      ("max_tfidf_features", VInt 5);
      ("output_artifact", VStr "random_forest_export") ].

Definition sample_test_call : run_call :=
  RunCall
    "https://github.com/udacity/build-ml-pipeline#components/test_regression_model"
    "main"
    [ ("mlflow_model", VStr "random_forest_export:prod");
      ("test_dataset", VStr "test_data.csv:latest") ].

(** ** Vocabulary of the further properties *)

(** The events a block can produce: the JSON file and the external run. *)
Definition is_step_event (e : event) : bool :=
  match e with
  | OpenW _ | JsonDump _ _ | MlflowRun _ => true
  | SetEnv _ _ | MkTemp _ | RmTemp _ => false
  end.

(** The entries [config[sec][key]] that the block of a step looks up. *)
Definition reads (st : step) : list (string * string) :=
  match st with
  | Download =>
      [ ("main", "components_repository"); ("etl", "sample") ]
  | BasicCleaning =>
      [ ("etl", "min_price"); ("etl", "max_price") ]
  | DataCheck =>
      [ ("data_check", "kl_threshold"); ("etl", "min_price");
        ("etl", "max_price") ]
  | DataSplit =>
      [ ("main", "components_repository"); ("modeling", "test_size");
        ("modeling", "random_seed"); ("modeling", "stratify_by") ]
  | TrainRandomForest =>
      [ ("modeling", "random_forest"); ("modeling", "val_size");
        ("modeling", "random_seed"); ("modeling", "stratify_by");
        ("modeling", "max_tfidf_features") ]
  | TestRegressionModel =>
      [ ("main", "components_repository") ]
  end.

(** The steps whose component lives in this repository's [src] directory. *)
Definition local_step (st : step) : bool :=
  match st with
  | BasicCleaning | DataCheck | TrainRandomForest => true
  | Download | DataSplit | TestRegressionModel => false
  end.

(** Parameters that more than one step receives. *)
Definition shared_parameters : list string :=
  [ "min_price"; "max_price"; "random_seed"; "stratify_by" ].

(** The path of the JSON file of the random forest configuration. *)
Definition rf_config_path (w : world) : string :=
  os_path_join (getcwd w) ["rf_config.json"].

(** A configuration that has no [modeling] section. *)
Definition etl_only_config (steps : string) : value :=
  VDict
    [ ("main", VDict
        [ ("components_repository",
             VStr "https://github.com/udacity/build-ml-pipeline#components");
          ("project_name", VStr "nyc_airbnb");
          ("experiment_name", VStr "development");
          ("steps", VStr steps) ]);
      ("etl", VDict
        [ ("sample", VStr "sample1.csv");
          ("min_price", VInt 10);
          ("max_price", VInt 350) ]);
      ("data_check", VDict [ ("kl_threshold", VFloat quarter) ]) ].

(** A configuration with the given [main] section and the sample [etl]
    section. *)
Definition config_with_main (main : pydict) : value :=
  VDict
    [ ("main", VDict main);
      ("etl", VDict
        [ ("sample", VStr "sample1.csv");
          ("min_price", VInt 10);
          ("max_price", VInt 350) ]) ].

(** No [steps] entry. *)
Definition stepless_config : value :=
  config_with_main
    [ ("project_name", VStr "nyc_airbnb");
      ("experiment_name", VStr "development") ].

(** A project name that YAML reads as a number. *)
Definition numeric_project_config : value :=
  config_with_main
    [ ("project_name", VInt 2024);
      ("experiment_name", VStr "development");
      ("steps", VStr "download") ].

(** An experiment name left empty in the YAML file. *)
Definition unnamed_experiment_config : value :=
  config_with_main
    [ ("project_name", VStr "nyc_airbnb");
      ("experiment_name", VNone);
      ("steps", VStr "download") ].

Definition sample_data_check_call : run_call :=
  RunCall "/home/u/pipeline/src/data_check" "main"
    [ ("csv", VStr "clean_sample.csv:latest");
      ("ref", VStr "clean_sample.csv:reference");
      ("kl_threshold", VFloat quarter);
      ("min_price", VInt 10);
      ("max_price", VInt 350) ].


(** The world in which the event that follows [pre] in the trace of [go]
    happened.  When that event is a run, the environment is already the final
    one: both assignments precede every run. *)
Definition world_at `{Externals} (config : value) (w : world)
    (pre : list event) : world :=
  World (environ (go config w).2) (original_cwd w) (getcwd w) (log w ++ pre).





(** An external platform on which the data_check component fails only in
    one particular state: when five events have happened before. *)
Definition moody_ext : Externals :=
  {| py_str := fun v => match v with VNone => "None" | _ => "<node>" end;
     mlflow_returns := fun w c =>
       negb (String.eqb (uri c) "/home/u/pipeline/src/data_check"
             && Nat.eqb (length (log w)) 5);
     mkdtemp := fun _ => "/tmp/tmpq1w2e3" |}.

Definition sample_download_call : run_call :=
  RunCall "https://github.com/udacity/build-ml-pipeline#components/get_data"
    "main"
    [ ("sample", VStr "sample1.csv");
      ("artifact_name", VStr "sample.csv");
      ("artifact_type", VStr "raw_data");
      ("artifact_description", VStr "Raw file as downloaded") ].

(** What has happened in the sample execution when data_check is
    dispatched. *)
Definition events_before_data_check : list event :=
  [ SetEnv "WANDB_PROJECT" "nyc_airbnb";
    SetEnv "WANDB_RUN_GROUP" "development";
    MkTemp "/tmp/tmpq1w2e3";
    MlflowRun sample_download_call;
    MlflowRun sample_basic_cleaning_call ].

(** Only events of blocks. *)
Definition step_events_ok (evs : list event) : Prop :=
  Forall (fun e => is_step_event e = true) evs.

(** * Properties *)

Section props.
Context {ext : Externals}.

Lemma record_nil w : record w [] = w.
Proof. destruct w; unfold record; simpl. by rewrite app_nil_r. Qed.

Lemma record_record w a b : record (record w a) b = record w (a ++ b).
Proof. unfold record; simpl. by rewrite app_assoc. Qed.

Lemma runs_of_app a b : runs_of (a ++ b) = runs_of a ++ runs_of b.
Proof. apply omap_app. Qed.

Lemma no_setenv_nil : no_setenv [].
Proof. intros k v H. by apply elem_of_nil in H. Qed.

Lemma no_setenv_app a b : no_setenv a → no_setenv b → no_setenv (a ++ b).
Proof. intros Ha Hb k v [H|H]%elem_of_app; [by eapply Ha | by eapply Hb]. Qed.

Lemma no_setenv_cons e evs :
  (∀ k v, e ≠ SetEnv k v) → no_setenv evs → no_setenv (e :: evs).
Proof.
  intros He Hevs k v [H|H]%elem_of_cons; [by eapply He | by eapply Hevs].
Qed.

Ltac case_results :=
  repeat match goal with
  | |- context [match ?x with Ok _ => _ | Raise _ => _ end] =>
      destruct x eqn:?; simpl
  | |- context [if ?b then _ else _] => destruct b eqn:?; simpl
  end.

Lemma step_body_spec st config w : step_post st config w (step_body st config w).
Proof.
  unfold step_post.
  destruct st; simpl;
    unfold download, basic_cleaning, data_check, data_split,
      train_random_forest, test_regression_model, mlflow_run, lift,
      get_original_cwd, os_path_abspath, json_dump, emit, raise;
    unfold mbind, M_bind; simpl.
  all: case_results.
  all: rewrite ?record_record; simpl.
  all: try (eexists; split; [reflexivity|]; split;
            [ repeat (apply no_setenv_cons; [discriminate|]); apply no_setenv_nil
            | first [ by left | right; eexists; split; [reflexivity | reflexivity] ] ]).
  all: try (exists []; rewrite record_nil; split; [done|]; split; [apply no_setenv_nil | by left]).
Qed.

Lemma call_of_same_dirs st config w1 w2 :
  original_cwd w1 = original_cwd w2 → getcwd w1 = getcwd w2 →
  call_of st config w1 = call_of st config w2.
Proof. intros Ho Hc. destruct st; simpl; by rewrite ?Ho, ?Hc. Qed.

Lemma call_of_record st config w evs :
  call_of st config (record w evs) = call_of st config w.
Proof. by apply call_of_same_dirs. Qed.

Lemma run_steps_spec config act sts w :
  ∃ evs done,
    (run_steps config act sts w).2 = record w evs ∧ no_setenv evs ∧
    done `prefix_of` selected act sts ∧
    Forall2 (fun st c => call_of st config w = Ok c) done (runs_of evs) ∧
    (is_ok (run_steps config act sts w).1 = true → done = selected act sts).
Proof.
  revert w. induction sts as [|st rest IH]; intros w.
  - exists [], []. simpl. rewrite record_nil.
    split_and!; auto using no_setenv_nil.
  - simpl. unfold mbind, M_bind, when, py_in, selected.
    rewrite filter_cons. fold (selected act rest).
    case_bool_decide as Hin; rewrite decide_bool_decide; 
    [rewrite bool_decide_eq_true_2 by done | rewrite bool_decide_eq_false_2 by done ].
    + destruct (step_body_spec st config w) as (evs1 & Hw1 & Hns1 & Hruns).
      destruct (step_body st config w) as [[[]|e] w1]; simpl in *; subst w1.
      * destruct Hruns as [[_ ?]|(c & Hc & Hr)]; [done|].
        destruct (IH (record w evs1)) as (evs2 & done2 & Hw2 & Hns2 & Hpre & Hall & Hok).
        exists (evs1 ++ evs2), (st :: done2).
        rewrite Hw2, record_record, runs_of_app, Hr. simpl.
        split; [done|]. split; [by apply no_setenv_app|].
        split; [exact (prefix_cons _ _ _ Hpre)|]. split.
        -- constructor; [done|].
           eapply Forall2_impl; [exact Hall|]. intros ? ?; simpl.
           by rewrite call_of_record.
        -- intros H. by rewrite (Hok H).
      * exists evs1.
        destruct Hruns as [[Hr _]|(c & Hc & Hr)].
        -- exists []. rewrite Hr. split_and!; auto; [apply prefix_nil | done].
        -- exists [st]. rewrite Hr.
           split_and!; auto; [apply prefix_cons, prefix_nil | done].
    + simpl. apply IH.
Qed.

Lemma go_steps_run_steps config act w :
  go_steps config act w = run_steps config act pipeline w.
Proof.
  unfold go_steps, pipeline; simpl. unfold mbind, M_bind.
  repeat match goal with
  | |- context [when ?b ?m ?w] => destruct (when b m w) as [[[]|?] ?]
  end; reflexivity.
Qed.

Local Arguments run_steps : simpl never.

Lemma go_env_ready config w p e :
  env_ready config p e →
  go config w =
    match active_of config with
    | Raise x => (Raise x, after_env w p e)
    | Ok act =>
        let w2 := after_env w p e in
        let d := mkdtemp w2 in
        let out := run_steps config act pipeline (record w2 [MkTemp d]) in
        (out.1, record out.2 [RmTemp d])
    end.
Proof.
  intros (Hp & Hnp & He & Hne).
  unfold go, active_of, mbind at 1 2 3 4 5 6, M_bind, lift, environ_setitem.
  rewrite Hp, Hnp. simpl. rewrite He, Hne. simpl.
  unfold after_env. rewrite <- app_assoc. simpl.
  destruct (cfg config "main" "steps") as [steps_par|x]; simpl; [|done].
  destruct (active_steps_of steps_par) as [act|x]; simpl; [|done].
  unfold with_TemporaryDirectory, emit. simpl.
  rewrite go_steps_run_steps.
  by destruct (run_steps _ _ _ _).
Qed.

Lemma go_env_cases config w :
  (∃ p e, env_ready config p e) ∨
  (is_ok (go config w).1 = false ∧
   ∃ evs, log (go config w).2 = log w ++ evs ∧ runs_of evs = []).
Proof.
  unfold env_ready.
  destruct (cfg config "main" "project_name") as [pn|x] eqn:Hp.
  2:{ right. unfold go, mbind, M_bind, lift. rewrite Hp. simpl.
      split; [done|]. exists []. by rewrite app_nil_r. }
  assert (Hbad1 : environ_setitem "WANDB_PROJECT" pn w = (Raise TypeError, w) ∨
                  environ_setitem "WANDB_PROJECT" pn w = (Raise ValueError, w) →
          is_ok (go config w).1 = false ∧
          ∃ evs, log (go config w).2 = log w ++ evs ∧ runs_of evs = []).
  { intros H. unfold go, mbind, M_bind, lift. rewrite Hp. simpl.
    destruct H as [-> | ->]; simpl; (split; [done|]); exists [];
      by rewrite app_nil_r. }
  destruct pn as [| | | |p| |]; try (right; apply Hbad1; by left).
  destruct (has_nul p) eqn:Hnp.
  { right. apply Hbad1. right. simpl. by rewrite Hnp. }
  clear Hbad1.
  destruct (cfg config "main" "experiment_name") as [en|x] eqn:He.
  2:{ right. unfold go, mbind, M_bind, lift. rewrite Hp. simpl.
      rewrite Hnp, He. simpl. split; [done|]. by eexists. }
  set (w1 := World (<["WANDB_PROJECT" := p]> (environ w)) (original_cwd w)
                   (getcwd w) (log w ++ [SetEnv "WANDB_PROJECT" p])).
  assert (Hbad2 : environ_setitem "WANDB_RUN_GROUP" en w1 = (Raise TypeError, w1) ∨
                  environ_setitem "WANDB_RUN_GROUP" en w1 = (Raise ValueError, w1) →
          is_ok (go config w).1 = false ∧
          ∃ evs, log (go config w).2 = log w ++ evs ∧ runs_of evs = []).
  { intros H. unfold go, mbind, M_bind, lift. rewrite Hp. simpl.
    rewrite Hnp, He. fold w1.
    destruct H as [-> | ->]; simpl; (split; [done|]); by eexists. }
  destruct en as [| | | |e| |]; try (right; apply Hbad2; by left).
  destruct (has_nul e) eqn:Hne.
  { right. apply Hbad2. right. simpl. by rewrite Hne. }
  left. by exists p, e.
Qed.

Lemma trace_of config w evs :
  log (go config w).2 = log w ++ evs → trace config w = evs.
Proof. unfold trace. intros ->. apply drop_app_length. Qed.

(** What one execution dispatches: the calls of an initial segment of the
    plan, and of the whole plan when [go] returns. *)
Lemma go_spec config w :
  ∃ done,
    done `prefix_of` plan config ∧
    Forall2 (fun st c => call_of st config w = Ok c) done
            (dispatched config w) ∧
    (returns config w → done = plan config).
Proof.
  unfold dispatched, returns.
  destruct (go_env_cases config w) as [(p & e & Hready)|(Hfail & evs & Hlog & Hruns)].
  2:{ exists []. rewrite (trace_of _ _ _ Hlog), Hruns, Hfail.
      split; [apply prefix_nil|]. split; [constructor | done]. }
  pose proof (go_env_ready config w p e Hready) as Hgo.
  unfold plan. destruct (active_of config) as [act|x].
  2:{ exists []. rewrite (trace_of config w [SetEnv "WANDB_PROJECT" p; SetEnv "WANDB_RUN_GROUP" e]), Hgo
        by (by rewrite Hgo).
      split; [apply prefix_nil|]. split; [constructor | done]. }
  simpl in Hgo.
  set (w2 := after_env w p e) in *. set (d := mkdtemp w2) in *.
  destruct (run_steps_spec config act pipeline (record w2 [MkTemp d]))
    as (evs & done & Hw & Hns & Hpre & Hall & Hok).
  exists done. 
  rewrite (trace_of config w ([SetEnv "WANDB_PROJECT" p; SetEnv "WANDB_RUN_GROUP" e; MkTemp d] ++ evs ++ [RmTemp d])).
  2:{ rewrite Hgo. simpl. rewrite Hw. unfold record, w2, after_env. simpl.
      by rewrite <- !app_assoc. }
  split; [done|]. split.
  - simpl. rewrite runs_of_app. simpl. rewrite app_nil_r.
    eapply Forall2_impl; [exact Hall|]. intros st c; simpl. intros <-.
    by apply call_of_same_dirs.
  - rewrite Hgo. simpl. intros H. by apply Hok.
Qed.

Ltac invert_call H :=
  simpl in H;
  unfold download_call, basic_cleaning_call, data_check_call, data_split_call,
    train_random_forest_call, test_regression_model_call in H;
  unfold mbind, result_bind, mret, result_ret in H;
  repeat match type of H with
  | context [match ?x with Ok _ => _ | Raise _ => _ end] =>
      destruct x eqn:?; try discriminate H
  end;
  injection H as <-.

(** Two different blocks never pass the same arguments: their parameter
    dictionaries start with different keys. *)
Lemma call_of_inj st1 st2 config w c :
  call_of st1 config w = Ok c → call_of st2 config w = Ok c → st1 = st2.
Proof.
  intros H1 H2.
  destruct st1, st2; try reflexivity; exfalso;
    invert_call H1; invert_call H2; discriminate.
Qed.

Lemma elem_of_dispatched st config w c :
  call_of st config w = Ok c → c ∈ dispatched config w → st ∈ plan config.
Proof.
  intros Hc Hin.
  destruct (go_spec config w) as (done & Hpre & Hall & _).
  destruct (proj1 (list_elem_of_lookup _ _) Hin) as [i Hi].
  destruct (Forall2_lookup_r _ _ _ _ _ Hall Hi) as (st' & Hst' & Hc').
  rewrite (call_of_inj _ _ _ _ _ Hc Hc').
  eapply elem_of_prefix; [|exact Hpre].
  eapply list_elem_of_lookup_2; eauto.
Qed.


Lemma elem_of_plan st config act :
  active_of config = Ok act → st ∈ plan config ↔ step_name st ∈ act.
Proof.
  intros H. unfold plan. rewrite H, list_elem_of_filter.
  split; [by intros [? _]|]. intros Hin. split; [done|].
  destruct st; unfold pipeline; set_solver.
Qed.

Lemma plan_all config :
  cfg config "main" "steps" = Ok (VStr "all") →
  plan config =
    [Download; BasicCleaning; DataCheck; DataSplit; TrainRandomForest].
Proof. intros H. unfold plan, active_of. rewrite H. reflexivity. Qed.

Lemma active_of_names config s :
  cfg config "main" "steps" = Ok (VStr s) → s ≠ "all" →
  active_of config = Ok (split comma s).
Proof.
  intros H Hs. unfold active_of. rewrite H. simpl.
  by rewrite (proj2 (String.eqb_neq s "all") Hs).
Qed.

Lemma active_of_all config :
  cfg config "main" "steps" = Ok (VStr "all") → active_of config = Ok _steps.
Proof. intros H. unfold active_of. by rewrite H. Qed.

Lemma dispatched_call config w c :
  c ∈ dispatched config w → ∃ st, call_of st config w = Ok c.
Proof.
  intros Hin.
  destruct (go_spec config w) as (done & _ & Hall & _).
  destruct (proj1 (list_elem_of_lookup _ _) Hin) as [i Hi].
  destruct (Forall2_lookup_r _ _ _ _ _ Hall Hi) as (st & _ & Hc).
  by exists st.
Qed.

Lemma call_of_congr st config1 config2 w :
  same_but_steps config1 config2 →
  call_of st config1 w = call_of st config2 w.
Proof.
  intros H. destruct st; simpl;
    unfold download_call, basic_cleaning_call, data_check_call,
      data_split_call, train_random_forest_call, test_regression_model_call;
    by rewrite ?(H "main" "components_repository"), ?(H "etl" "sample"),
      ?(H "etl" "min_price"), ?(H "etl" "max_price"),
      ?(H "data_check" "kl_threshold"), ?(H "modeling" "test_size"),
      ?(H "modeling" "val_size"), ?(H "modeling" "random_seed"),
      ?(H "modeling" "stratify_by"), ?(H "modeling" "max_tfidf_features")
      by discriminate.
Qed.

Lemma step_body_congr st config1 config2 w :
  same_but_steps config1 config2 →
  step_body st config1 w = step_body st config2 w.
Proof.
  intros H.
  pose proof (fun w' => call_of_congr st config1 config2 w' H) as Hc.
  destruct st; simpl in *;
    unfold download, basic_cleaning, data_check, data_split,
      train_random_forest, test_regression_model, mbind, M_bind, lift,
      get_original_cwd, os_path_abspath, emit;
    simpl; rewrite ?(H "modeling" "random_forest") by discriminate;
    try (by rewrite (Hc w)).
  destruct (cfg config2 "modeling" "random_forest") as [rf|]; [|done].
  destruct (py_items rf) as [doc|]; [|done].
  destruct (json_dump _ _ _) as [[[]|] w']; [|done].
  pose proof (Hc (World (environ w') (original_cwd w') (getcwd w) (log w')))
    as Hc'.
  simpl in Hc'. by rewrite Hc'.
Qed.

Lemma run_steps_congr config1 config2 act1 act2 sts w :
  same_but_steps config1 config2 →
  (∀ st, step_name st ∈ act1 ↔ step_name st ∈ act2) →
  run_steps config1 act1 sts w = run_steps config2 act2 sts w.
Proof.
  intros H Hact. revert w. induction sts as [|st rest IH]; intros w; [done|].
  unfold run_steps; fold run_steps. unfold mbind, M_bind, when, py_in.
  rewrite (bool_decide_ext _ _ (Hact st)).
  destruct (bool_decide (step_name st ∈ act2)).
  - rewrite (step_body_congr st config1 config2 w H).
    destruct (step_body st config2 w) as [[[]|] w']; [apply IH | done].
  - apply IH.
Qed.

(** Only the membership of the six step names in the comma-separated list
    matters to [go]. *)
Lemma go_congr config1 config2 s1 s2 w :
  cfg config1 "main" "steps" = Ok (VStr s1) →
  cfg config2 "main" "steps" = Ok (VStr s2) →
  same_but_steps config1 config2 →
  s1 ≠ "all" → s2 ≠ "all" →
  (∀ st, step_name st ∈ split comma s1 ↔ step_name st ∈ split comma s2) →
  go config1 w = go config2 w.
Proof.
  intros Hs1 Hs2 H Hn1 Hn2 Hact.
  unfold go, mbind, M_bind, lift.
  rewrite (H "main" "project_name"), (H "main" "experiment_name")
    by discriminate.
  destruct (cfg config2 "main" "project_name") as [pn|]; [|done].
  destruct (environ_setitem "WANDB_PROJECT" pn w) as [[[]|] w1]; [|done].
  destruct (cfg config2 "main" "experiment_name") as [en|]; [|done].
  destruct (environ_setitem "WANDB_RUN_GROUP" en w1) as [[[]|] w2]; [|done].
  rewrite Hs1, Hs2. simpl.
  rewrite (proj2 (String.eqb_neq s1 "all") Hn1).
  rewrite (proj2 (String.eqb_neq s2 "all") Hn2).
  unfold with_TemporaryDirectory. simpl.
  rewrite !go_steps_run_steps.
  by rewrite (run_steps_congr config1 config2 _ _ pipeline _ H Hact).
Qed.

Lemma prefix_sublist {A} (l1 l2 : list A) :
  l1 `prefix_of` l2 → l1 `sublist_of` l2.
Proof. intros [k ->]. by apply sublist_inserts_r. Qed.

Lemma plan_sublist config : plan config `sublist_of` pipeline.
Proof.
  unfold plan. destruct (active_of config).
  - apply sublist_filter.
  - apply sublist_nil_l.
Qed.

Ltac literal :=
  left; eexists; split; [reflexivity|];
  apply (bool_decide_unpack _); vm_compute; exact I.

Lemma run_steps_environ config act sts w :
  ∃ evs, (run_steps config act sts w).2 = record w evs ∧ no_setenv evs.
Proof.
  destruct (run_steps_spec config act sts w) as (evs & _ & Hw & Hns & _).
  by exists evs.
Qed.

(** ** The blocks one by one *)

Lemma record_inj w a b : record w a = record w b → a = b.
Proof.
  unfold record. intros H. injection H as H. by apply app_inv_head in H.
Qed.

Lemma mlflow_run_eq c w :
  mlflow_run c w =
    (if mlflow_returns w c then Ok tt else Raise ExecutionException,
     record w [MlflowRun c]).
Proof. unfold mlflow_run. by destruct (mlflow_returns w c). Qed.

(** The five blocks without a prelude: build the arguments, dispatch. *)
Lemma plain_step_eq st config w :
  st ≠ TrainRandomForest →
  step_body st config w =
    match call_of st config w with
    | Ok c => mlflow_run c w
    | Raise x => (Raise x, w)
    end.
Proof.
  intros Hst. destruct st; try done; simpl;
    unfold download, basic_cleaning, data_check, data_split,
      test_regression_model, mbind, M_bind, lift, get_original_cwd; simpl;
    by destruct (_ config).
Qed.

Lemma py_items_ok rf doc : py_items rf = Ok doc → rf = VDict doc.
Proof.
  destruct rf as [| | | | | |items]; try discriminate. simpl.
  destruct (existsb _ items); [discriminate|]. by intros [= ->].
Qed.

(** The block of train_random_forest in closed form. *)
Lemma train_step_eq config w :
  step_body TrainRandomForest config w =
    match cfg config "modeling" "random_forest" with
    | Raise x => (Raise x, record w [OpenW (rf_config_path w)])
    | Ok rf =>
        match py_items rf with
        | Raise x => (Raise x, record w [OpenW (rf_config_path w)])
        | Ok doc =>
            if forallb (fun kv => json_scalar kv.2) doc then
              let w' := record w [OpenW (rf_config_path w);
                                  JsonDump (rf_config_path w) doc] in
              match call_of TrainRandomForest config w with
              | Ok c => mlflow_run c w'
              | Raise x => (Raise x, w')
              end
            else (Raise TypeError, record w [OpenW (rf_config_path w)])
        end
    end.
Proof.
  simpl. unfold train_random_forest, mbind, M_bind, lift, get_original_cwd,
    os_path_abspath, emit, json_dump, raise, rf_config_path. simpl.
  destruct (cfg config "modeling" "random_forest") as [rf|]; simpl; [|done].
  destruct (py_items rf) as [doc|]; simpl; [|done].
  destruct (forallb _ _); simpl; [|done].
  rewrite record_record. simpl.
  by destruct (train_random_forest_call _ _ _).
Qed.

(** Everything one block can do; [w'] is the world in which the platform
    is asked to run the call. *)
Lemma step_body_cases st config w :
  ∃ evs,
    (step_body st config w).2 = record w evs ∧ step_events_ok evs ∧
    ((runs_of evs = [] ∧ is_ok (step_body st config w).1 = false) ∨
     (∃ c pre,
        call_of st config w = Ok c ∧ evs = pre ++ [MlflowRun c] ∧
        runs_of pre = [] ∧
        (step_body st config w).1 =
          (if mlflow_returns (record w pre) c then Ok tt
           else Raise ExecutionException) ∧
        (st = TrainRandomForest →
         ∃ doc, cfg config "modeling" "random_forest" = Ok (VDict doc) ∧
                pre = [OpenW (rf_config_path w);
                       JsonDump (rf_config_path w) doc]))).
Proof.
  assert (Hcase : st = TrainRandomForest ∨ st ≠ TrainRandomForest)
    by (destruct st; (by left) || (by right)).
  destruct Hcase as [->|Hst].
  - rewrite train_step_eq.
    destruct (cfg config "modeling" "random_forest") as [rf|x] eqn:Hrf.
    2:{ exists [OpenW (rf_config_path w)]. split; [done|].
        split; [by repeat constructor | by left]. }
    destruct (py_items rf) as [doc|x] eqn:Hdoc.
    2:{ exists [OpenW (rf_config_path w)]. split; [done|].
        split; [by repeat constructor | by left]. }
    apply py_items_ok in Hdoc as ->.
    destruct (forallb _ doc).
    2:{ exists [OpenW (rf_config_path w)]. split; [done|].
        split; [by repeat constructor | by left]. }
    cbv zeta. destruct (call_of TrainRandomForest config w) as [c|x].
    + rewrite mlflow_run_eq, record_record. simpl.
      eexists. split; [reflexivity|]. split; [by repeat constructor|].
      right.
      exists c, [OpenW (rf_config_path w); JsonDump (rf_config_path w) doc].
      split; [done|]. split; [done|]. split; [done|].
      split; [reflexivity|]. intros _. by exists doc.
    + eexists. split; [reflexivity|]. split; [by repeat constructor | by left].
  - rewrite (plain_step_eq st config w Hst).
    destruct (call_of st config w) as [c|x].
    + rewrite mlflow_run_eq. simpl.
      exists [MlflowRun c]. split; [done|]. split; [by repeat constructor|].
      right. exists c, []. rewrite record_nil. by split_and!.
    + exists []. rewrite record_nil. split; [done|].
      split; [constructor | by left].
Qed.

Lemma run_steps_cons config act st rest w :
  run_steps config act (st :: rest) w =
    if bool_decide (step_name st ∈ act) then
      match step_body st config w with
      | (Ok _, w') => run_steps config act rest w'
      | (Raise x, w') => (Raise x, w')
      end
    else run_steps config act rest w.
Proof.
  unfold run_steps at 1; fold run_steps. unfold mbind, M_bind, when, py_in.
  by destruct (bool_decide _).
Qed.

Lemma run_steps_events config act sts w :
  ∃ evs, (run_steps config act sts w).2 = record w evs ∧ step_events_ok evs.
Proof.
  revert w. induction sts as [|st rest IH]; intros w.
  - exists []. rewrite record_nil. split; [reflexivity | constructor].
  - rewrite run_steps_cons. destruct (bool_decide _); [|apply IH].
    destruct (step_body_cases st config w) as (evs1 & Hw1 & Hev1 & _).
    destruct (step_body st config w) as [[[]|x] w1]; simpl in Hw1; subst w1.
    + destruct (IH (record w evs1)) as (evs2 & -> & Hev2).
      exists (evs1 ++ evs2). rewrite record_record.
      split; [done | by apply Forall_app].
    + by exists evs1.
Qed.

Lemma runs_of_middle pre c post :
  runs_of (pre ++ MlflowRun c :: post) = runs_of pre ++ c :: runs_of post.
Proof. by rewrite runs_of_app. Qed.

Lemma snoc_run_inv pre1 c1 pre c k :
  runs_of pre1 = [] →
  pre1 ++ [MlflowRun c1] = pre ++ MlflowRun c :: k →
  pre = pre1 ∧ c = c1 ∧ k = [].
Proof.
  revert pre. induction pre1 as [|e pre1 IH]; intros pre Hruns Heq.
  - destruct pre as [|e' pre].
    + by injection Heq as <- <-.
    + injection Heq as _ Heq. by destruct pre.
  - destruct pre as [|e' pre].
    + injection Heq as -> _. discriminate Hruns.
    + injection Heq as <- Heq.
      assert (Hruns' : runs_of pre1 = []) by (by destruct e).
      destruct (IH pre Hruns' Heq) as (-> & -> & ->). done.
Qed.

(** The platform is asked about a run in the world reached just before the
    run is logged; when it fails the run there, nothing follows. *)
Lemma run_steps_failed_run config act sts w evs pre c post :
  (run_steps config act sts w).2 = record w evs →
  evs = pre ++ MlflowRun c :: post →
  mlflow_returns (record w pre) c = false →
  post = [] ∧ (run_steps config act sts w).1 = Raise ExecutionException.
Proof.
  revert w evs pre. induction sts as [|st rest IH]; intros w evs pre.
  - simpl. rewrite <- (record_nil w) at 1. intros <-%record_inj Heq.
    by destruct pre.
  - rewrite run_steps_cons. destruct (bool_decide _); [|apply IH].
    destruct (step_body_cases st config w) as (evs1 & Hw1 & _ & Hcase).
    destruct (step_body st config w) as [r w1]; simpl in Hw1, Hcase; subst w1.
    destruct Hcase as [[Hruns Hr]|(c1 & pre1 & _ & -> & Hpre1 & -> & _)].
    + destruct r as [|x]; [done|]. simpl. intros <-%record_inj -> _.
      rewrite runs_of_middle in Hruns. by destruct (runs_of pre).
    + destruct (mlflow_returns (record w pre1) c1) eqn:Hret.
      * destruct (run_steps_events config act rest
                    (record w (pre1 ++ [MlflowRun c1]))) as (evs2 & Hw2 & _).
        intros Hw Heq Hfail. rewrite Hw2, record_record in Hw.
        apply record_inj in Hw as <-.
        apply app_eq_inv in Heq as [(k & Heq1 & Heq2)|(k & -> & Heq2)].
        -- destruct k as [|e k].
           ++ rewrite app_nil_r in Heq1. subst pre. simpl in Heq2.
              rewrite <- (app_nil_r (pre1 ++ [MlflowRun c1])) in Hfail.
              rewrite <- record_record in Hfail.
              by apply (IH _ _ [] Hw2).
           ++ injection Heq2 as <- ->.
              apply snoc_run_inv in Heq1 as (-> & -> & _); [|done].
              by rewrite Hret in Hfail.
        -- rewrite <- record_record in Hfail. by apply (IH _ _ k Hw2).
      * simpl. intros <-%record_inj Heq _.
        by apply snoc_run_inv in Heq as (_ & _ & ->).
Qed.


Lemma run_steps_none config act sts w :
  (∀ st, st ∈ sts → step_name st ∉ act) →
  run_steps config act sts w = (Ok tt, w).
Proof.
  induction sts as [|st rest IH]; intros Hnone; [done|].
  rewrite run_steps_cons.
  rewrite bool_decide_eq_false_2 by (apply Hnone, list_elem_of_here).
  apply IH. intros st' Hin. by apply Hnone, list_elem_of_further.
Qed.


Lemma run_steps_train_dump config act sts w c evs :
  call_of TrainRandomForest config w = Ok c →
  (run_steps config act sts w).2 = record w evs →
  c ∈ runs_of evs →
  ∃ doc pre post,
    cfg config "modeling" "random_forest" = Ok (VDict doc) ∧
    evs = pre ++ [OpenW (rf_config_path w); JsonDump (rf_config_path w) doc;
                  MlflowRun c] ++ post.
Proof.
  revert w evs. induction sts as [|st rest IH]; intros w evs Hc.
  - simpl. rewrite <- (record_nil w) at 1. intros <-%record_inj Hin.
    by apply elem_of_nil in Hin.
  - rewrite run_steps_cons. destruct (bool_decide _); [|by apply IH].
    destruct (step_body_cases st config w) as (evs1 & Hw1 & _ & Hcase).
    destruct (step_body st config w) as [r w1]; simpl in Hw1, Hcase; subst w1.
    assert (Hhere : ∀ c' pre,
              call_of st config w = Ok c' → c = c' →
              (st = TrainRandomForest →
               ∃ doc, cfg config "modeling" "random_forest" = Ok (VDict doc) ∧
                      pre = [OpenW (rf_config_path w);
                             JsonDump (rf_config_path w) doc]) →
              ∀ post, ∃ doc pre0 post0,
                cfg config "modeling" "random_forest" = Ok (VDict doc) ∧
                (pre ++ [MlflowRun c']) ++ post =
                  pre0 ++ [OpenW (rf_config_path w);
                           JsonDump (rf_config_path w) doc; MlflowRun c]
                       ++ post0).
    { intros c' pre Hc' <- Htrain post.
      destruct (Htrain (call_of_inj _ _ _ _ _ Hc' Hc)) as (doc & Hdoc & ->).
      by exists doc, [], post. }
    destruct Hcase as [[Hruns Hr]|(c' & pre & Hc' & -> & Hpre & -> & Htr)].
    + destruct r as [[]|x].
      * done.
      * simpl. intros <-%record_inj Hin.
        rewrite Hruns in Hin. by apply elem_of_nil in Hin.
    + destruct (mlflow_returns (record w pre) c').
      * destruct (run_steps_events config act rest
                    (record w (pre ++ [MlflowRun c']))) as (evs2 & Hw2 & _).
        intros Hw. rewrite Hw2, record_record in Hw.
        apply record_inj in Hw as <-.
        rewrite !runs_of_app, Hpre. simpl.
        intros [Heq|Hin]%elem_of_cons; [by apply Hhere|].
        rewrite <- (call_of_record _ _ _ (pre ++ [MlflowRun c'])) in Hc.
        destruct (IH _ _ Hc Hw2 Hin) as (doc & pre0 & post0 & Hdoc & ->).
        exists doc, ((pre ++ [MlflowRun c']) ++ pre0), post0.
        split; [done|]. by rewrite <- !app_assoc.
      * simpl. intros <-%record_inj. rewrite runs_of_app, Hpre. simpl.
        intros Hin. apply list_elem_of_singleton in Hin.
        rewrite <- (app_nil_r (pre ++ [MlflowRun c'])). by apply Hhere.
Qed.

(** An execution that reaches the [with] block. *)
Lemma go_ready_trace config w p e act :
  env_ready config p e →
  active_of config = Ok act →
  let d := mkdtemp (after_env w p e) in
  let w3 := record (after_env w p e) [MkTemp d] in
  ∃ evs,
    (run_steps config act pipeline w3).2 = record w3 evs ∧
    step_events_ok evs ∧
    trace config w =
      [SetEnv "WANDB_PROJECT" p; SetEnv "WANDB_RUN_GROUP" e; MkTemp d]
      ++ evs ++ [RmTemp d] ∧
    (go config w).1 = (run_steps config act pipeline w3).1.
Proof.
  intros Hready Hact d w3.
  destruct (run_steps_events config act pipeline w3) as (evs & Hw & Hev).
  exists evs. split; [done|]. split; [done|].
  pose proof (go_env_ready config w p e Hready) as Hgo.
  rewrite Hact in Hgo. cbv zeta in Hgo. fold d in Hgo. fold w3 in Hgo.
  split.
  - apply trace_of. rewrite Hgo. simpl. rewrite Hw.
    unfold w3, record, after_env. simpl. by rewrite <- !app_assoc.
  - by rewrite Hgo.
Qed.

Lemma go_not_ready_trace config w :
  (∀ p e, ¬ env_ready config p e) → dispatched config w = [].
Proof.
  intros Hnot.
  destruct (go_env_cases config w) as [(p & e & H)|(_ & evs & Hlog & Hruns)].
  - by destruct (Hnot p e).
  - unfold dispatched. by rewrite (trace_of _ _ _ Hlog).
Qed.

Lemma go_bad_steps config w p e x :
  env_ready config p e → active_of config = Raise x →
  go config w = (Raise x, after_env w p e).
Proof.
  intros Hready Hact. rewrite (go_env_ready config w p e Hready).
  by rewrite Hact.
Qed.

Lemma dispatched_bad_steps config w p e x :
  env_ready config p e → active_of config = Raise x →
  dispatched config w = [].
Proof.
  intros Hready Hact. unfold dispatched.
  rewrite (trace_of config w
             [SetEnv "WANDB_PROJECT" p; SetEnv "WANDB_RUN_GROUP" e]); [done|].
  by rewrite (go_bad_steps config w p e x).
Qed.




(** With no active step the [with] block only creates and removes the
    temporary directory. *)
Lemma go_no_active_step config w p e act :
  env_ready config p e → active_of config = Ok act →
  (∀ st, step_name st ∉ act) →
  go config w =
    (Ok tt, record (after_env w p e)
              [MkTemp (mkdtemp (after_env w p e));
               RmTemp (mkdtemp (after_env w p e))]).
Proof.
  intros Hready Hact Hnone.
  rewrite (go_env_ready config w p e Hready), Hact. cbv zeta.
  rewrite run_steps_none by (intros st _; apply Hnone). simpl.
  by rewrite record_record.
Qed.

(** ** The claims *)

(** Claim C1 (amended): when [config['main']['steps']] is ["all"] and [go]
    returns, exactly five runs are dispatched, one for each name of [_steps]
    (download, basic_cleaning, data_check, data_split, train_random_forest)
    and in that order; no run is dispatched for test_regression_model. *)
Theorem C1_all_dispatches_the_five_listed_steps config w :
  cfg config "main" "steps" = Ok (VStr "all") →
  returns config w →
  Forall2 (fun st c => call_of st config w = Ok c)
    [Download; BasicCleaning; DataCheck; DataSplit; TrainRandomForest]
    (dispatched config w) ∧
  length (dispatched config w) = 5 ∧
  ¬ step_dispatched TestRegressionModel config w.
Proof.
  intros Hall Hret.
  destruct (go_spec config w) as (done & _ & Hcalls & Hdone).
  rewrite (Hdone Hret), (plan_all _ Hall) in Hcalls.
  split; [done|]. split.
  - by rewrite <- (Forall2_length _ _ _ Hcalls).
  - intros (c & Hc & Hin).
    pose proof (elem_of_dispatched _ _ _ _ Hc Hin) as Hplan.
    rewrite (plan_all _ Hall) in Hplan.
    repeat (apply elem_of_cons in Hplan as [Hplan|Hplan]; [discriminate|]).
    by apply elem_of_nil in Hplan.
Qed.

(** Claim C2: whatever the configuration, the runs [go] dispatches are the
    calls of a subsequence of the six blocks in their fixed source order; and
    two steps strings that list the same names in a different order make
    [go] behave identically, dispatch order included. *)
Theorem C2_fixed_dispatch_order :
  (∀ config w, ∃ sts,
      sts `sublist_of` pipeline ∧
      Forall2 (fun st c => call_of st config w = Ok c) sts
              (dispatched config w)) ∧
  (∀ config1 config2 s1 s2 w,
      cfg config1 "main" "steps" = Ok (VStr s1) →
      cfg config2 "main" "steps" = Ok (VStr s2) →
      same_but_steps config1 config2 →
      s1 ≠ "all" → s2 ≠ "all" →
      split comma s1 ≡ₚ split comma s2 →
      go config1 w = go config2 w).
Proof.
  split.
  - intros config w.
    destruct (go_spec config w) as (done & Hpre & Hall & _).
    exists done. split; [|done].
    etrans; [by apply prefix_sublist | apply plan_sublist].
  - intros config1 config2 s1 s2 w Hs1 Hs2 H Hn1 Hn2 Hperm.
    apply (go_congr _ _ s1 s2); try done.
    intros st. by rewrite Hperm.
Qed.



(** Claim C5 (amended): the location of a dispatched run is
    [config['main']['components_repository']] followed by the component name
    for download, data_split and test_regression_model, and the local path
    [os.path.join(original_cwd, "src", <step name>)] for basic_cleaning,
    data_check and train_random_forest. *)
Theorem C5_remote_and_local_components config w st c :
  call_of st config w = Ok c →
  c ∈ dispatched config w →
  match st with
  | Download =>
      ∃ repo, cfg config "main" "components_repository" = Ok repo ∧
              uri c = format_field repo +:+ "/get_data"
  | DataSplit =>
      ∃ repo, cfg config "main" "components_repository" = Ok repo ∧
              uri c = format_field repo +:+ "/train_val_test_split"
  | TestRegressionModel =>
      ∃ repo, cfg config "main" "components_repository" = Ok repo ∧
              uri c = format_field repo +:+ "/test_regression_model"
  | BasicCleaning | DataCheck | TrainRandomForest =>
      uri c = os_path_join (original_cwd w) ["src"; step_name st]
  end.
Proof.
  intros Hc _. destruct st; invert_call Hc; simpl; eauto.
Qed.

(** Claim C7 (amended): every value of every dispatched parameter
    dictionary is a string literal of the source or a value read from the
    configuration as [config[sec][key]], except the value of ["rf_config"],
    which is the absolute path of [rf_config.json] in the current working
    directory. *)
Theorem C7_parameter_values_provenance config w c k v :
  c ∈ dispatched config w →
  (k, v) ∈ parameters c →
  is_literal v ∨ read_from_config config v ∨
  (k = "rf_config" ∧ v = VStr (os_path_join (getcwd w) ["rf_config.json"])).
Proof.
  intros Hin Hkv. destruct (dispatched_call _ _ _ Hin) as [st Hc].
  unfold read_from_config.
  destruct st; invert_call Hc; simpl in Hkv;
    repeat (apply elem_of_cons in Hkv as [Hkv|Hkv];
            [injection Hkv as -> ->;
             first [literal | by right; left; eauto | by right; right]|]);
    by apply elem_of_nil in Hkv.
Qed.

(** Claim C8: for steps strings other than ["all"], the string is split on
    commas as it is, without trimming or validation, and names that are not
    exactly one of the six step names have no effect at all: two
    configurations whose steps strings contain the same step names (and
    agree elsewhere) make [go] end in the same result and the same world;
    every dispatched run belongs to a step whose exact name is in the list;
    and when no element of the list is a step name, nothing is dispatched and
    [go] returns exactly when the two environment assignments are accepted,
    so no error comes from the names. *)
Theorem C8_unrecognised_names_ignored config1 config2 s1 s2 w :
  cfg config1 "main" "steps" = Ok (VStr s1) →
  cfg config2 "main" "steps" = Ok (VStr s2) →
  same_but_steps config1 config2 →
  s1 ≠ "all" → s2 ≠ "all" →
  (∀ st, step_name st ∈ split comma s1 ↔ step_name st ∈ split comma s2) →
  go config1 w = go config2 w ∧
  (∀ c, c ∈ dispatched config1 w →
    ∃ st, call_of st config1 w = Ok c ∧ step_name st ∈ split comma s1) ∧
  ((∀ st, step_name st ∉ split comma s1) →
   (returns config1 w ↔ ∃ p e, env_ready config1 p e) ∧
   dispatched config1 w = []).
Proof.
  intros Hs1 Hs2 H Hn1 Hn2 Hact. split; [by apply (go_congr _ _ s1 s2)|].
  split.
  - intros c Hin. destruct (dispatched_call _ _ _ Hin) as [st Hc].
    exists st. split; [done|].
    apply (elem_of_plan st config1 _ (active_of_names _ _ Hs1 Hn1)).
    by eapply elem_of_dispatched.
  - intros Hnone.
    pose proof (active_of_names _ _ Hs1 Hn1) as Hactive.
    assert (Hready : ∀ p e, env_ready config1 p e →
              returns config1 w ∧ dispatched config1 w = []).
    { intros p e Hready. unfold returns, dispatched, trace.
      rewrite (go_no_active_step config1 w p e _ Hready Hactive Hnone).
      split; [done|]. simpl. rewrite <- app_assoc.
      by rewrite drop_app_length. }
    destruct (go_env_cases config1 w)
      as [(p & e & Hr)|(Hfail & evs & Hlog & Hruns)].
    + destruct (Hready p e Hr) as [Hret Hnil]. split; [|done].
      split; [by exists p, e | done].
    + split.
      * split; [|by intros (p & e & Hr); apply (Hready p e Hr)].
        unfold returns. by rewrite Hfail.
      * unfold dispatched. by rewrite (trace_of _ _ _ Hlog).
Qed.

(** Claim C9: a run for test_regression_model is dispatched only when the
    steps string is not ["all"] and has ["test_regression_model"] among its
    comma-separated elements; in particular never under ["all"]. *)
Theorem C9_test_step_only_when_named config w :
  step_dispatched TestRegressionModel config w →
  ∃ s, cfg config "main" "steps" = Ok (VStr s) ∧ s ≠ "all" ∧
       "test_regression_model" ∈ split comma s.
Proof.
  intros (c & Hc & Hin).
  pose proof (elem_of_dispatched _ _ _ _ Hc Hin) as Hplan.
  unfold plan, active_of in Hplan.
  destruct (cfg config "main" "steps") as [steps_par|] eqn:Hs; simpl in Hplan;
    [|by apply elem_of_nil in Hplan].
  destruct steps_par as [| | | |s| |]; simpl in Hplan;
    try (by apply elem_of_nil in Hplan).
  exists s. split; [done|].
  destruct (String.eqb s "all") eqn:Hall.
  - exfalso.
    repeat (apply elem_of_cons in Hplan as [Hplan|Hplan]; [discriminate|]).
    by apply elem_of_nil in Hplan.
  - split; [by apply String.eqb_neq|].
    by apply list_elem_of_filter in Hplan as [? _].
Qed.

(** Claim C10 (amended): when [project_name] and [experiment_name] are
    present and are NUL-free strings, every execution of [go], whatever the
    active steps and however it ends, starts with the two assignments
    [WANDB_PROJECT := project_name] and [WANDB_RUN_GROUP := experiment_name],
    makes no other environment assignment, and leaves every other variable
    as it was. *)
Theorem C10_environment_set_first config w p e :
  cfg config "main" "project_name" = Ok (VStr p) →
  has_nul p = false →
  cfg config "main" "experiment_name" = Ok (VStr e) →
  has_nul e = false →
  environ (go config w).2 =
    <["WANDB_RUN_GROUP" := e]> (<["WANDB_PROJECT" := p]> (environ w)) ∧
  (∀ name, name ≠ "WANDB_PROJECT" → name ≠ "WANDB_RUN_GROUP" →
     environ (go config w).2 !! name = environ w !! name) ∧
  ∃ rest,
    trace config w =
      SetEnv "WANDB_PROJECT" p :: SetEnv "WANDB_RUN_GROUP" e :: rest ∧
    no_setenv rest.
Proof.
  intros Hp Hnp He Hne.
  assert (Henv : environ (go config w).2 =
            <["WANDB_RUN_GROUP" := e]> (<["WANDB_PROJECT" := p]> (environ w))
          ∧ ∃ rest, log (go config w).2 =
              log w ++ SetEnv "WANDB_PROJECT" p ::
                       SetEnv "WANDB_RUN_GROUP" e :: rest ∧
              no_setenv rest).
  { rewrite (go_env_ready config w p e) by done.
    destruct (active_of config) as [act|x]; simpl.
    - set (w2 := after_env w p e). set (d := mkdtemp w2).
      destruct (run_steps_environ config act pipeline (record w2 [MkTemp d]))
        as (evs & -> & Hns).
      split; [done|]. exists (MkTemp d :: evs ++ [RmTemp d]). split.
      + simpl. by rewrite <- !app_assoc.
      + apply no_setenv_cons; [done|]. apply no_setenv_app; [done|].
        apply no_setenv_cons; [done | apply no_setenv_nil].
    - split; [done|]. exists []. split; [done | apply no_setenv_nil]. }
  destruct Henv as (Henv & rest & Hlog & Hns).
  split; [done|]. split.
  - intros name H1 H2. by rewrite Henv, !lookup_insert_ne.
  - exists rest. split; [by apply trace_of | done].
Qed.

(** ** Further properties of the driver *)

(** Extra X1: once the two environment values and the steps value are
    accepted, the trace of [go] is the two assignments, the creation of the
    temporary directory, events of the blocks only, and the removal of that
    same directory as the last event, whether [go] returns or raises; every
    run is dispatched in between. *)
Theorem X1_temporary_directory_brackets_the_runs config w p e act :
  env_ready config p e →
  active_of config = Ok act →
  ∃ evs,
    trace config w =
      [SetEnv "WANDB_PROJECT" p; SetEnv "WANDB_RUN_GROUP" e;
       MkTemp (mkdtemp (after_env w p e))]
      ++ evs ++ [RmTemp (mkdtemp (after_env w p e))] ∧
    step_events_ok evs ∧
    dispatched config w = runs_of evs.
Proof.
  intros Hready Hact.
  destruct (go_ready_trace config w p e act Hready Hact)
    as (evs & _ & Hev & Htrace & _).
  exists evs. split; [done|]. split; [done|].
  unfold dispatched. rewrite Htrace. simpl.
  rewrite runs_of_app. simpl. by rewrite app_nil_r.
Qed.

Lemma go_ready_environ config w p e :
  env_ready config p e →
  environ (go config w).2 = environ (after_env w p e).
Proof.
  intros Hready. rewrite (go_env_ready config w p e Hready).
  destruct (active_of config) as [act|x]; [|done]. cbv zeta.
  destruct (run_steps_events config act pipeline
              (record (after_env w p e)
                 [MkTemp (mkdtemp (after_env w p e))])) as (evs & Hw & _).
  simpl. by rewrite Hw.
Qed.

(** Extra X2: a run that the platform fails, in the world in which it is
    dispatched, stops the pipeline: [go] raises [ExecutionException], the
    failed run is the last run dispatched, and the only event after it is
    the removal of the temporary directory. *)
Theorem X2_failed_run_is_the_last_one config w c pre post :
  trace config w = pre ++ MlflowRun c :: post →
  mlflow_returns (world_at config w pre) c = false →
  (go config w).1 = Raise ExecutionException ∧
  last (dispatched config w) = Some c ∧
  ∃ d, post = [RmTemp d].
Proof.
  intros Htr Hfail.
  assert (Hin : c ∈ dispatched config w).
  { unfold dispatched. rewrite Htr, runs_of_middle.
    apply elem_of_app. right. apply list_elem_of_here. }
  destruct (go_env_cases config w) as [(p & e & Hready)|(_ & evs & Hlog & Hr)].
  2:{ unfold dispatched in Hin. rewrite (trace_of _ _ _ Hlog), Hr in Hin.
      by apply elem_of_nil in Hin. }
  destruct (active_of config) as [act|x] eqn:Hact.
  2:{ rewrite (dispatched_bad_steps config w p e x Hready Hact) in Hin.
      by apply elem_of_nil in Hin. }
  destruct (go_ready_trace config w p e act Hready Hact)
    as (evs & Hw & _ & Htrace & Hres).
  set (d := mkdtemp (after_env w p e)) in *.
  set (w3 := record (after_env w p e) [MkTemp d]) in *.
  assert (Hworld : ∀ pre',
            world_at config w
              (SetEnv "WANDB_PROJECT" p :: SetEnv "WANDB_RUN_GROUP" e ::
               MkTemp d :: pre')
            = record w3 pre').
  { intros pre'. unfold world_at, w3, record.
    rewrite (go_ready_environ config w p e Hready). simpl.
    by rewrite <- !app_assoc. }
  rewrite Htr in Htrace.
  destruct pre as [|e1 [|e2 [|e3 pre']]]; simpl in Htrace;
    try discriminate Htrace.
  injection Htrace as -> -> -> Htrace. rewrite Hworld in Hfail.
  symmetry in Htrace.
  apply app_eq_inv in Htrace as [(k & Hevs & Hk)|(k & _ & Hk)].
  - destruct k as [|ek k]; [discriminate Hk|].
    injection Hk as <- ->.
    destruct (run_steps_failed_run _ _ _ _ _ _ _ _ Hw Hevs Hfail)
      as [-> Hraise].
    split; [by rewrite Hres|]. split; [|by exists d].
    unfold dispatched. rewrite Htr, runs_of_middle. simpl.
    by rewrite last_snoc.
  - destruct k as [|ek k]; [discriminate Hk|].
    injection Hk as _ Hk. by destruct k.
Qed.

(** Extra X3: when [config['main']['steps']] is missing or is not a string,
    [go] raises right after the two environment assignments: the variables
    stay set, no temporary directory is created and no run is dispatched. *)
Theorem X3_bad_steps_value_raises_after_the_environment config w p e :
  env_ready config p e →
  (∀ s, cfg config "main" "steps" ≠ Ok (VStr s)) →
  is_ok (go config w).1 = false ∧
  (go config w).2 = after_env w p e ∧
  dispatched config w = [].
Proof.
  intros Hready Hbad.
  assert (Hact : ∃ x, active_of config = Raise x).
  { unfold active_of.
    destruct (cfg config "main" "steps") as [[| | | |s| |]|x] eqn:Hs;
      simpl; eauto.
    by destruct (Hbad s). }
  destruct Hact as [x Hact].
  rewrite (go_bad_steps config w p e x Hready Hact). simpl.
  split; [done|]. split; [done|]. by eapply dispatched_bad_steps.
Qed.

(** Extra X4: when [config['main']['project_name']] is missing, is not a
    string or contains NUL, [go] raises before it has changed anything. *)
Theorem X4_bad_project_name_changes_nothing config w :
  (∀ p, cfg config "main" "project_name" = Ok (VStr p) → has_nul p = true) →
  is_ok (go config w).1 = false ∧ (go config w).2 = w.
Proof.
  intros Hbad. unfold go, mbind, M_bind, lift.
  destruct (cfg config "main" "project_name") as [[| | | |p| |]|x] eqn:Hp;
    simpl; try done.
  by rewrite (Hbad p eq_refl).
Qed.

(** Extra X5: when [project_name] is accepted but
    [config['main']['experiment_name']] is missing, is not a string or
    contains NUL, [go] raises with [WANDB_PROJECT] already assigned and
    nothing else done. *)
Theorem X5_bad_experiment_name_keeps_the_project config w p :
  cfg config "main" "project_name" = Ok (VStr p) →
  has_nul p = false →
  (∀ e, cfg config "main" "experiment_name" = Ok (VStr e) →
        has_nul e = true) →
  is_ok (go config w).1 = false ∧
  (go config w).2 =
    World (<["WANDB_PROJECT" := p]> (environ w)) (original_cwd w) (getcwd w)
          (log w ++ [SetEnv "WANDB_PROJECT" p]).
Proof.
  intros Hp Hnp Hbad. unfold go, mbind, M_bind, lift.
  rewrite Hp. simpl. rewrite Hnp.
  destruct (cfg config "main" "experiment_name") as [[| | | |e| |]|x] eqn:He;
    simpl; try done.
  by rewrite (Hbad e eq_refl).
Qed.

(** Extra X6: the run of train_random_forest is dispatched right after the
    driver opened [rf_config.json] in the current working directory and
    dumped the items of [config['modeling']['random_forest']] into it, and
    its ["rf_config"] parameter is the path of that file. *)
Theorem X6_random_forest_config_dumped_before_the_run config w c :
  call_of TrainRandomForest config w = Ok c →
  c ∈ dispatched config w →
  ∃ doc pre post,
    cfg config "modeling" "random_forest" = Ok (VDict doc) ∧
    trace config w =
      pre ++ [OpenW (rf_config_path w); JsonDump (rf_config_path w) doc;
              MlflowRun c] ++ post ∧
    param c "rf_config" = Some (VStr (rf_config_path w)).
Proof.
  intros Hc Hin.
  assert (Hparam : param c "rf_config" = Some (VStr (rf_config_path w))).
  { clear Hin. by invert_call Hc. }
  destruct (go_env_cases config w) as [(p & e & Hready)|(_ & evs & Hlog & Hr)].
  2:{ unfold dispatched in Hin. rewrite (trace_of _ _ _ Hlog), Hr in Hin.
      by apply elem_of_nil in Hin. }
  destruct (active_of config) as [act|x] eqn:Hact.
  2:{ rewrite (dispatched_bad_steps config w p e x Hready Hact) in Hin.
      by apply elem_of_nil in Hin. }
  destruct (go_ready_trace config w p e act Hready Hact)
    as (evs & Hw & _ & Htrace & _).
  assert (Hd : dispatched config w = runs_of evs).
  { unfold dispatched. rewrite Htrace. simpl.
    rewrite runs_of_app. simpl. by rewrite app_nil_r. }
  rewrite Hd in Hin.
  set (w3 := record (after_env w p e) [MkTemp (mkdtemp (after_env w p e))])
    in *.
  assert (Hc3 : call_of TrainRandomForest config w3 = Ok c).
  { rewrite <- Hc. by apply call_of_same_dirs. }
  destruct (run_steps_train_dump _ _ _ _ _ _ Hc3 Hw Hin)
    as (doc & pre & post & Hdoc & ->).
  change (rf_config_path w3) with (rf_config_path w) in Htrace.
  exists doc.
  exists ([SetEnv "WANDB_PROJECT" p; SetEnv "WANDB_RUN_GROUP" e;
           MkTemp (mkdtemp (after_env w p e))] ++ pre).
  exists (post ++ [RmTemp (mkdtemp (after_env w p e))]).
  split; [done|]. split; [|done].
  rewrite Htrace. simpl. by rewrite <- !app_assoc.
Qed.

Lemma Forall2_NoDup {A B} (R : A → B → Prop) (l : list A) (k : list B) :
  (∀ a a' b, R a b → R a' b → a = a') →
  Forall2 R l k → NoDup l → NoDup k.
Proof.
  intros Hinj Hall. induction Hall as [|a b l k Hab Hall IH]; intros Hnd.
  - constructor.
  - apply NoDup_cons in Hnd as [Hnotin Hnd]. apply NoDup_cons.
    split; [|by apply IH]. intros Hin. apply Hnotin.
    destruct (proj1 (list_elem_of_lookup _ _) Hin) as [i Hi].
    destruct (Forall2_lookup_r _ _ _ _ _ Hall Hi) as (a' & Ha' & Ha'b).
    rewrite (Hinj a a' b Hab Ha'b). by eapply list_elem_of_lookup_2.
Qed.

Lemma NoDup_pipeline : NoDup pipeline.
Proof.
  unfold pipeline.
  repeat (apply NoDup_cons_2;
          [intros Hin;
           repeat (apply elem_of_cons in Hin as [Hin|Hin]; [discriminate|]);
           by apply elem_of_nil in Hin|]).
  apply NoDup_nil_2.
Qed.

(** Extra X7: no run is dispatched twice in one execution, however often a
    name occurs in the steps string, and at most six runs are dispatched. *)
Theorem X7_each_step_dispatched_at_most_once config w :
  NoDup (dispatched config w) ∧ (length (dispatched config w) ≤ 6)%nat.
Proof.
  destruct (go_spec config w) as (done & Hpre & Hall & _).
  assert (Hsub : done `sublist_of` pipeline).
  { etrans; [by apply prefix_sublist | apply plan_sublist]. }
  split.
  - eapply Forall2_NoDup; [|exact Hall|].
    + intros st st' c H1 H2. exact (call_of_inj _ _ _ _ _ H1 H2).
    + eapply sublist_NoDup; [apply NoDup_pipeline | exact Hsub].
  - rewrite <- (Forall2_length _ _ _ Hall).
    by apply sublist_length in Hsub.
Qed.

(** Extra X8: every dispatched run uses the entry point ["main"]. *)
Theorem X8_entry_point_is_main config w c :
  c ∈ dispatched config w → entry_point c = "main".
Proof.
  intros Hin. destruct (dispatched_call _ _ _ Hin) as [st Hc].
  destruct st; by invert_call Hc.
Qed.

(** Extra X9: a parameter that several steps receive (the price bounds, the
    random seed, the stratification column) has the same value in every
    dispatched run that carries it. *)
Theorem X9_shared_parameters_agree config w c1 c2 k v1 v2 :
  c1 ∈ dispatched config w →
  c2 ∈ dispatched config w →
  k ∈ shared_parameters →
  param c1 k = Some v1 →
  param c2 k = Some v2 →
  v1 = v2.
Proof.
  intros Hin1 Hin2 Hk Hp1 Hp2.
  destruct (dispatched_call _ _ _ Hin1) as [st1 Hc1].
  destruct (dispatched_call _ _ _ Hin2) as [st2 Hc2].
  clear Hin1 Hin2. unfold shared_parameters in Hk.
  repeat (apply elem_of_cons in Hk as [->|Hk]);
    [| | | |by apply elem_of_nil in Hk];
    unfold param in Hp1, Hp2;
    destruct st1; invert_call Hc1; simpl in Hp1; try discriminate Hp1;
    destruct st2; invert_call Hc2; simpl in Hp2; try discriminate Hp2;
    congruence.
Qed.

Ltac in_reads :=
  simpl; repeat first [apply list_elem_of_here | apply list_elem_of_further].

Lemma call_of_reads_congr st config1 config2 w :
  (∀ sec key, (sec, key) ∈ reads st →
     cfg config1 sec key = cfg config2 sec key) →
  call_of st config1 w = call_of st config2 w.
Proof.
  intros H. destruct st; simpl;
    unfold download_call, basic_cleaning_call, data_check_call,
      data_split_call, train_random_forest_call, test_regression_model_call;
    by rewrite ?(H "main" "components_repository"), ?(H "etl" "sample"),
      ?(H "etl" "min_price"), ?(H "etl" "max_price"),
      ?(H "data_check" "kl_threshold"), ?(H "modeling" "test_size"),
      ?(H "modeling" "val_size"), ?(H "modeling" "random_seed"),
      ?(H "modeling" "stratify_by"), ?(H "modeling" "max_tfidf_features")
      by in_reads.
Qed.

Lemma step_body_reads_congr st config1 config2 w :
  (∀ sec key, (sec, key) ∈ reads st →
     cfg config1 sec key = cfg config2 sec key) →
  step_body st config1 w = step_body st config2 w.
Proof.
  intros H.
  assert (Hcase : st = TrainRandomForest ∨ st ≠ TrainRandomForest)
    by (destruct st; (by left) || (by right)).
  destruct Hcase as [->|Hst].
  - rewrite !train_step_eq.
    rewrite (H "modeling" "random_forest") by in_reads.
    by rewrite (call_of_reads_congr TrainRandomForest config1 config2 w H).
  - rewrite !plain_step_eq by done.
    by rewrite (call_of_reads_congr st config1 config2 w H).
Qed.

Lemma run_steps_reads_congr config1 config2 act sts w :
  (∀ st sec key, st ∈ sts → step_name st ∈ act → (sec, key) ∈ reads st →
     cfg config1 sec key = cfg config2 sec key) →
  run_steps config1 act sts w = run_steps config2 act sts w.
Proof.
  revert w. induction sts as [|st rest IH]; intros w H; [done|].
  rewrite !run_steps_cons.
  assert (Hrest : ∀ w', run_steps config1 act rest w'
                        = run_steps config2 act rest w').
  { intros w'. apply IH. intros st' sec key Hin. apply H.
    by apply list_elem_of_further. }
  case_bool_decide as Hact; [|apply Hrest].
  rewrite (step_body_reads_congr st config1 config2 w).
  - destruct (step_body st config2 w) as [[[]|x] w']; [apply Hrest | done].
  - intros sec key. apply H; [apply list_elem_of_here | done].
Qed.

(** Extra X10: [go] looks at the configuration only through
    [main.project_name], [main.experiment_name], [main.steps] and the entries
    read by the blocks of the active steps: two configurations that agree on
    these make [go] end with the same result in the same world.  Entries of
    inactive steps may differ or be missing. *)
Theorem X10_only_active_steps_read_the_configuration config1 config2 w :
  cfg config1 "main" "project_name" = cfg config2 "main" "project_name" →
  cfg config1 "main" "experiment_name"
    = cfg config2 "main" "experiment_name" →
  cfg config1 "main" "steps" = cfg config2 "main" "steps" →
  (∀ st sec key, st ∈ plan config1 → (sec, key) ∈ reads st →
     cfg config1 sec key = cfg config2 sec key) →
  go config1 w = go config2 w.
Proof.
  intros Hp He Hs Hreads.
  assert (Hplan : ∀ act, active_of config1 = Ok act →
            ∀ st sec key, st ∈ pipeline → step_name st ∈ act →
              (sec, key) ∈ reads st →
              cfg config1 sec key = cfg config2 sec key).
  { intros act Hact st sec key _ Hin. apply Hreads.
    by apply (elem_of_plan st config1 act Hact). }
  unfold active_of in Hplan. unfold go, mbind, M_bind, lift.
  rewrite Hp, He, Hs. rewrite Hs in Hplan.
  destruct (cfg config2 "main" "project_name") as [pn|]; [|done].
  destruct (environ_setitem "WANDB_PROJECT" pn w) as [[[]|] w1]; [|done].
  destruct (cfg config2 "main" "experiment_name") as [en|]; [|done].
  destruct (environ_setitem "WANDB_RUN_GROUP" en w1) as [[[]|] w2]; [|done].
  destruct (cfg config2 "main" "steps") as [steps_par|]; [|done].
  simpl in Hplan |- *.
  destruct (active_steps_of steps_par) as [act|]; [|done].
  unfold with_TemporaryDirectory. simpl.
  rewrite !go_steps_run_steps.
  by rewrite (run_steps_reads_congr config1 config2 act pipeline _
                (Hplan act eq_refl)).
Qed.



Lemma app_String x (a b : string) : String x a +:+ b = String x (a +:+ b).
Proof. reflexivity. Qed.

Lemma app_empty_l (b : string) : "" +:+ b = b.
Proof. reflexivity. Qed.

Lemma string_app_assoc (a b c : string) : (a +:+ b) +:+ c = a +:+ b +:+ c.
Proof.
  induction a as [|x a IH]; [done|]. rewrite !app_String. by f_equal.
Qed.

Lemma endswith_sep_app a x b :
  endswith_sep (a +:+ String x b) = endswith_sep (String x b).
Proof.
  induction a as [|y a IH]; [done|].
  rewrite app_String, <- IH. destruct a; [done|]. by rewrite app_String.
Qed.

Lemma eqb_app_nonempty a x b : String.eqb (a +:+ String x b) "" = false.
Proof. destruct a; [done|]. by rewrite app_String. Qed.

(** Extra X12: the location of a local step is [<original cwd>/src/<step
    name>]; no separator is added when the original working directory is
    empty or already ends with one. *)
Theorem X12_location_of_a_local_step config w st c :
  local_step st = true →
  call_of st config w = Ok c →
  uri c =
    original_cwd w
    +:+ (if String.eqb (original_cwd w) "" || endswith_sep (original_cwd w)
         then "" else "/")
    +:+ "src/" +:+ step_name st.
Proof.
  intros Hlocal Hc.
  destruct st; try discriminate Hlocal; invert_call Hc; simpl;
    unfold os_path_join, join_step; simpl;
    destruct (String.eqb (original_cwd w) "" || endswith_sep (original_cwd w));
    rewrite ?string_app_assoc, ?app_String, ?app_empty_l.
  all: rewrite ?eqb_app_nonempty, ?endswith_sep_app.
  all: simpl.
  all: rewrite ?string_app_assoc, ?app_String, ?app_empty_l.
  all: done.
Qed.

Lemma concat_cons_cons sep x y (l : list string) :
  String.concat sep (x :: y :: l) = x +:+ sep +:+ String.concat sep (y :: l).
Proof. reflexivity. Qed.

(** Extra X13: [split] loses nothing: it never returns an empty list, joining
    its fields with the separator gives the string back, and no field
    contains the separator. *)
Theorem X13_split_round_trip sep s :
  split sep s ≠ [] ∧
  String.concat (String sep "") (split sep s) = s ∧
  ∀ field, field ∈ split sep s → ∀ a b, field ≠ a +:+ String sep b.
Proof.
  induction s as [|c rest (Hne & Hcat & Hsep)].
  - split; [done|]. split; [done|].
    intros field Hin%list_elem_of_singleton a b. subst field.
    destruct a; [done|]. by rewrite app_String.
  - simpl. destruct (Ascii.eqb c sep) eqn:Hc.
    + apply Ascii.eqb_eq in Hc as ->.
      split; [done|]. split.
      * destruct (split sep rest) as [|x xs]; [done|].
        by rewrite concat_cons_cons, app_empty_l, app_String, app_empty_l,
             Hcat.
      * intros field [->|Hin]%elem_of_cons a b; [|by apply Hsep].
        destruct a; [done|]. by rewrite app_String.
    + apply Ascii.eqb_neq in Hc.
      destruct (split sep rest) as [|x xs]; [done|].
      split; [done|]. split.
      * destruct xs as [|y ys].
        -- change (x = rest) in Hcat. by subst.
        -- rewrite concat_cons_cons, app_String. f_equal.
           by rewrite <- Hcat, concat_cons_cons.
      * intros field [->|Hin]%elem_of_cons a b.
        -- destruct a as [|z a].
           ++ rewrite app_empty_l. intros [= ? _]. done.
           ++ rewrite app_String. intros [= _ Hx].
              by apply (Hsep x (list_elem_of_here _ _) a b).
        -- apply Hsep. by apply list_elem_of_further.
Qed.

End props.

Lemma call_of_ext (e1 e2 : Externals) st config w1 w2 :
  (∀ v, @py_str e1 v = @py_str e2 v) →
  original_cwd w1 = original_cwd w2 → getcwd w1 = getcwd w2 →
  call_of (ext := e1) st config w1 = call_of (ext := e2) st config w2.
Proof.
  intros Hstr Ho Hc.
  assert (Hf : ∀ v, format_field (ext := e1) v = format_field (ext := e2) v).
  { intros []; simpl; auto. }
  destruct st; simpl; rewrite <- ?Ho, <- ?Hc; try done;
    unfold download_call, data_split_call, test_regression_model_call;
    destruct (cfg config "main" "components_repository") as [repo|];
    simpl; by rewrite ?Hf.
Qed.

Lemma Forall2_functional {A B} (f : A → result B) l k1 k2 :
  Forall2 (fun a b => f a = Ok b) l k1 →
  Forall2 (fun a b => f a = Ok b) l k2 → k1 = k2.
Proof.
  intros H1. revert k2. induction H1 as [|a b l k1 Hab _ IH]; intros k2 H2.
  - by apply Forall2_nil_inv_l in H2.
  - apply Forall2_cons_inv_l in H2 as (b' & k2' & Hab' & H2 & ->).
    rewrite Hab in Hab'. injection Hab' as ->. f_equal. by apply IH.
Qed.

(** Claim C6 (amended): two executions of [go] on equal configurations,
    with equal original and current working directories, that both return
    dispatch the same sequence of runs (same location, entry point and
    parameter dictionary), whatever the initial environment, the earlier
    events, the temporary directory and the external platform are. *)
Theorem C6_same_inputs_same_dispatches (e1 e2 : Externals) config w1 w2 :
  (∀ v, @py_str e1 v = @py_str e2 v) →
  original_cwd w1 = original_cwd w2 →
  getcwd w1 = getcwd w2 →
  returns (ext := e1) config w1 →
  returns (ext := e2) config w2 →
  dispatched (ext := e1) config w1 = dispatched (ext := e2) config w2.
Proof.
  intros Hstr Ho Hc Hr1 Hr2.
  destruct (go_spec (ext := e1) config w1) as (d1 & _ & Hall1 & Hd1).
  destruct (go_spec (ext := e2) config w2) as (d2 & _ & Hall2 & Hd2).
  rewrite (Hd1 Hr1) in Hall1. rewrite (Hd2 Hr2) in Hall2.
  eapply Forall2_functional; [exact Hall1|].
  eapply Forall2_impl; [exact Hall2|]. intros st c; simpl. intros <-.
  by apply call_of_ext.
Qed.

(** ** Concrete executions *)

Ltac in_list :=
  vm_compute;
  repeat first [apply list_elem_of_here | apply list_elem_of_further].

Ltac not_in_list H :=
  vm_compute in H;
  repeat (apply elem_of_cons in H as [H|H]; [discriminate H|]);
  by apply elem_of_nil in H.

(** Two sample configurations differ at most in their steps string. *)
Lemma sample_config_same_but_steps s1 s2 :
  same_but_steps (sample_config s1) (sample_config s2).
Proof.
  intros sec key Hne. unfold cfg, sample_config, mbind, result_bind.
  cbn [getitem dict_get].
  destruct (String.eqb sec "main") eqn:Hsec; [|reflexivity].
  apply String.eqb_eq in Hsec. subst sec.
  assert (Hkey : String.eqb key "steps" = false).
  { apply String.eqb_neq. intros ->. by apply Hne. }
  cbn [is_missing getitem dict_get]. by rewrite Hkey.
Qed.

(** When the platform fails the first run, [go] raises there: the download
    run is the only one dispatched, and the temporary directory is still
    removed.  This is why the statements about what is dispatched speak of
    executions in which [go] returns. *)
Example failed_run_stops_the_pipeline :
  go (ext := failing_ext) (sample_config "all") sample_world
  = (Raise ExecutionException,
     record (after_env sample_world "nyc_airbnb" "development")
       [ MkTemp "/tmp/tmpq1w2e3";
         MlflowRun
           (RunCall
              "https://github.com/udacity/build-ml-pipeline#components/get_data"
              "main"
              [ ("sample", VStr "sample1.csv");
                ("artifact_name", VStr "sample.csv");
                ("artifact_type", VStr "raw_data");
                ("artifact_description", VStr "Raw file as downloaded") ]);
         RmTemp "/tmp/tmpq1w2e3" ]).
Proof. vm_compute. reflexivity. Qed.

(** Claim C1 as stated fails: under ["all"] the sample execution returns
    after five dispatches, not six, and none is for test_regression_model. *)
Lemma C1_counterexample_all_dispatches_five :
  cfg (sample_config "all") "main" "steps" = Ok (VStr "all") ∧
  returns (ext := sample_ext) (sample_config "all") sample_world ∧
  length (dispatched (ext := sample_ext) (sample_config "all") sample_world)
    ≠ 6 ∧
  ¬ step_dispatched (ext := sample_ext) TestRegressionModel
      (sample_config "all") sample_world.
Proof.
  split; [reflexivity|]. split; [vm_compute; reflexivity|].
  split; [vm_compute; discriminate|].
  intros (c & Hc & Hin).
  pose proof (elem_of_dispatched _ _ _ _ Hc Hin) as Hplan.
  not_in_list Hplan.
Qed.

(** The amended C1 on the sample configuration with steps ["all"]. *)
Lemma C1_witness_sample_all :
  cfg (sample_config "all") "main" "steps" = Ok (VStr "all") ∧
  returns (ext := sample_ext) (sample_config "all") sample_world ∧
  (Forall2
     (fun st c =>
        call_of (ext := sample_ext) st (sample_config "all") sample_world
        = Ok c)
     [Download; BasicCleaning; DataCheck; DataSplit; TrainRandomForest]
     (dispatched (ext := sample_ext) (sample_config "all") sample_world) ∧
   length (dispatched (ext := sample_ext) (sample_config "all") sample_world)
     = 5 ∧
   ¬ step_dispatched (ext := sample_ext) TestRegressionModel
       (sample_config "all") sample_world).
Proof.
  assert (H1 : cfg (sample_config "all") "main" "steps" = Ok (VStr "all"))
    by reflexivity.
  assert (H2 : returns (ext := sample_ext) (sample_config "all") sample_world)
    by (vm_compute; reflexivity).
  split; [exact H1|]. split; [exact H2|].
  exact (C1_all_dispatches_the_five_listed_steps (ext := sample_ext)
           (sample_config "all") sample_world H1 H2).
Defined.

(** C2 on two steps strings that list the same two names in opposite
    orders. *)
Lemma C2_witness_swapped_names :
  (∃ sts,
     sts `sublist_of` pipeline ∧
     Forall2
       (fun st c =>
          call_of (ext := sample_ext) st
            (sample_config "data_check,download") sample_world = Ok c)
       sts
       (dispatched (ext := sample_ext)
          (sample_config "data_check,download") sample_world)) ∧
  go (ext := sample_ext) (sample_config "data_check,download") sample_world
  = go (ext := sample_ext) (sample_config "download,data_check") sample_world.
Proof.
  destruct (C2_fixed_dispatch_order (ext := sample_ext)) as [Horder Hperm].
  split; [apply Horder|].
  apply (Hperm _ _ "data_check,download" "download,data_check").
  - reflexivity.
  - reflexivity.
  - apply sample_config_same_but_steps.
  - discriminate.
  - discriminate.
  - change (["data_check"; "download"] ≡ₚ ["download"; "data_check"]).
    apply perm_swap.
Defined.




(** Claim C5 as stated fails: the run of basic_cleaning in the sample
    execution goes to a path under the launch directory, which is not a
    location inside the components repository. *)
Lemma C5_counterexample_local_component :
  call_of (ext := sample_ext) BasicCleaning (sample_config "all") sample_world
    = Ok sample_basic_cleaning_call ∧
  sample_basic_cleaning_call
    ∈ dispatched (ext := sample_ext) (sample_config "all") sample_world ∧
  ¬ in_components_repository (ext := sample_ext) (sample_config "all")
      sample_basic_cleaning_call.
Proof.
  split; [vm_compute; reflexivity|]. split; [in_list|].
  intros (repo & component & Hrepo & Huri).
  vm_compute in Hrepo. injection Hrepo as <-.
  simpl in Huri. discriminate Huri.
Qed.

(** The amended C5 for the run of basic_cleaning in the sample execution. *)
Lemma C5_witness_basic_cleaning :
  call_of (ext := sample_ext) BasicCleaning (sample_config "all") sample_world
    = Ok sample_basic_cleaning_call ∧
  sample_basic_cleaning_call
    ∈ dispatched (ext := sample_ext) (sample_config "all") sample_world ∧
  uri sample_basic_cleaning_call
    = os_path_join (original_cwd sample_world) ["src"; "basic_cleaning"].
Proof.
  assert (H1 : call_of (ext := sample_ext) BasicCleaning (sample_config "all")
                 sample_world = Ok sample_basic_cleaning_call)
    by (vm_compute; reflexivity).
  assert (H2 : sample_basic_cleaning_call
                 ∈ dispatched (ext := sample_ext) (sample_config "all")
                     sample_world) by in_list.
  split; [exact H1|]. split; [exact H2|].
  exact (C5_remote_and_local_components (ext := sample_ext) _ _ BasicCleaning
           _ H1 H2).
Defined.

(** Claim C6 as stated fails: the same configuration run from two different
    current working directories gives two different dispatch sequences (the
    ["rf_config"] parameter of train_random_forest differs). *)
Lemma C6_counterexample_output_directory :
  returns (ext := sample_ext) (sample_config "all") sample_world ∧
  returns (ext := sample_ext) (sample_config "all") later_world ∧
  dispatched (ext := sample_ext) (sample_config "all") sample_world
  ≠ dispatched (ext := sample_ext) (sample_config "all") later_world.
Proof.
  split; [vm_compute; reflexivity|]. split; [vm_compute; reflexivity|].
  intros H.
  apply (f_equal (fun l => c ← l !! 4; param c "rf_config")) in H.
  vm_compute in H. discriminate H.
Qed.

(** The amended C6 on two executions that differ in the initial environment,
    the earlier events and the temporary directory name. *)
Lemma C6_witness_two_platforms :
  (∀ v, @py_str sample_ext v = @py_str other_ext v) ∧
  original_cwd sample_world = original_cwd busy_world ∧
  getcwd sample_world = getcwd busy_world ∧
  returns (ext := sample_ext) (sample_config "all") sample_world ∧
  returns (ext := other_ext) (sample_config "all") busy_world ∧
  dispatched (ext := sample_ext) (sample_config "all") sample_world
  = dispatched (ext := other_ext) (sample_config "all") busy_world.
Proof.
  assert (H1 : ∀ v, @py_str sample_ext v = @py_str other_ext v)
    by reflexivity.
  assert (H2 : original_cwd sample_world = original_cwd busy_world)
    by reflexivity.
  assert (H3 : getcwd sample_world = getcwd busy_world) by reflexivity.
  assert (H4 : returns (ext := sample_ext) (sample_config "all") sample_world)
    by (vm_compute; reflexivity).
  assert (H5 : returns (ext := other_ext) (sample_config "all") busy_world)
    by (vm_compute; reflexivity).
  repeat (split; [assumption|]).
  exact (C6_same_inputs_same_dispatches sample_ext other_ext _ _ _
           H1 H2 H3 H4 H5).
Defined.

(** Claim C7 as stated fails: the ["rf_config"] parameter of the
    train_random_forest run is a path computed from the working directory,
    neither a literal of the source nor a value of the configuration. *)
Lemma C7_counterexample_rf_config_path :
  sample_train_call
    ∈ dispatched (ext := sample_ext) (sample_config "all") sample_world ∧
  ("rf_config", VStr sample_rf_config) ∈ parameters sample_train_call ∧
  ¬ is_literal (VStr sample_rf_config) ∧
  ¬ read_from_config (sample_config "all") (VStr sample_rf_config).
Proof.
  split; [in_list|]. split; [in_list|]. split.
  - intros (s & Hs & Hin). injection Hs as <-. not_in_list Hin.
  - intros (sec & key & H).
    unfold cfg, sample_config, getitem, mbind, result_bind in H.
    simpl in H.
    repeat match type of H with
    | context [String.eqb ?a ?b] => destruct (String.eqb a b); simpl in H
    end; discriminate H.
Qed.

(** The amended C7 for the ["rf_config"] parameter of the sample
    execution. *)
Lemma C7_witness_rf_config :
  sample_train_call
    ∈ dispatched (ext := sample_ext) (sample_config "all") sample_world ∧
  ("rf_config", VStr sample_rf_config) ∈ parameters sample_train_call ∧
  (is_literal (VStr sample_rf_config) ∨
   read_from_config (sample_config "all") (VStr sample_rf_config) ∨
   ("rf_config" = "rf_config" ∧
    VStr sample_rf_config
    = VStr (os_path_join (getcwd sample_world) ["rf_config.json"]))).
Proof.
  assert (H1 : sample_train_call
                 ∈ dispatched (ext := sample_ext) (sample_config "all")
                     sample_world) by in_list.
  assert (H2 : ("rf_config", VStr sample_rf_config)
                 ∈ parameters sample_train_call) by in_list.
  split; [exact H1|]. split; [exact H2|].
  exact (C7_parameter_values_provenance (ext := sample_ext) _ _ _ _ _ H1 H2).
Defined.

(** C8: the steps string [" download,preprocess"] behaves like the empty
    one; the name with a leading space and the unknown name are ignored, [go]
    returns and dispatches nothing. *)
Lemma C8_witness_spaced_name :
  cfg (sample_config " download,preprocess") "main" "steps"
    = Ok (VStr " download,preprocess") ∧
  cfg (sample_config "") "main" "steps" = Ok (VStr "") ∧
  same_but_steps (sample_config " download,preprocess") (sample_config "") ∧
  " download,preprocess" ≠ "all" ∧
  "" ≠ "all" ∧
  (∀ st, step_name st ∈ split comma " download,preprocess" ↔
         step_name st ∈ split comma "") ∧
  go (ext := sample_ext) (sample_config " download,preprocess") sample_world
  = go (ext := sample_ext) (sample_config "") sample_world ∧
  returns (ext := sample_ext) (sample_config " download,preprocess")
    sample_world ∧
  dispatched (ext := sample_ext) (sample_config " download,preprocess")
    sample_world = [].
Proof.
  assert (H1 : cfg (sample_config " download,preprocess") "main" "steps"
               = Ok (VStr " download,preprocess")) by reflexivity.
  assert (H2 : cfg (sample_config "") "main" "steps" = Ok (VStr ""))
    by reflexivity.
  assert (H3 : same_but_steps (sample_config " download,preprocess")
                 (sample_config ""))
    by apply sample_config_same_but_steps.
  assert (H4 : " download,preprocess" ≠ "all") by discriminate.
  assert (H5 : "" ≠ "all") by discriminate.
  assert (H6 : ∀ st,
             step_name st ∈ split comma " download,preprocess" ↔
             step_name st ∈ split comma "").
  { intros []; apply (bool_decide_unpack _); vm_compute; exact I. }
  assert (H7 : ∀ st, step_name st ∉ split comma " download,preprocess").
  { intros []; apply (bool_decide_unpack _); vm_compute; exact I. }
  repeat (split; [assumption|]).
  destruct (C8_unrecognised_names_ignored (ext := sample_ext) _ _ _ _
              sample_world H1 H2 H3 H4 H5 H6) as (Hgo & _ & Hnone).
  destruct (Hnone H7) as [Hiff Hnil].
  split; [exact Hgo|]. split; [|exact Hnil].
  apply Hiff. exists "nyc_airbnb", "development". repeat split; reflexivity.
Defined.

(** C9 on an execution that names test_regression_model explicitly. *)
Lemma C9_witness_named_test_step :
  step_dispatched (ext := sample_ext) TestRegressionModel
    (sample_config "download,test_regression_model") sample_world ∧
  ∃ s,
    cfg (sample_config "download,test_regression_model") "main" "steps"
      = Ok (VStr s) ∧
    s ≠ "all" ∧ "test_regression_model" ∈ split comma s.
Proof.
  assert (H1 : step_dispatched (ext := sample_ext) TestRegressionModel
                 (sample_config "download,test_regression_model")
                 sample_world).
  { exists sample_test_call. split; [vm_compute; reflexivity | in_list]. }
  split; [exact H1|].
  exact (C9_test_step_only_when_named (ext := sample_ext) _ _ H1).
Defined.

(** Claim C10 as stated fails: with a project name that is not a string the
    invocation raises at the first assignment and neither variable is set. *)
Lemma C10_counterexample_numeric_project_name :
  cfg numeric_project_config "main" "project_name" = Ok (VInt 2024) ∧
  cfg numeric_project_config "main" "experiment_name"
    = Ok (VStr "development") ∧
  environ (go (ext := sample_ext) numeric_project_config sample_world).2
    !! "WANDB_PROJECT" = None ∧
  environ (go (ext := sample_ext) numeric_project_config sample_world).2
    !! "WANDB_RUN_GROUP" = None.
Proof. repeat split; vm_compute; reflexivity. Qed.

(** C10 on an execution with an empty steps string (no active step),
    started in a world that already has an environment variable. *)
Lemma C10_witness_no_active_step :
  cfg (sample_config "") "main" "project_name" = Ok (VStr "nyc_airbnb") ∧
  has_nul "nyc_airbnb" = false ∧
  cfg (sample_config "") "main" "experiment_name" = Ok (VStr "development") ∧
  has_nul "development" = false ∧
  environ (go (ext := sample_ext) (sample_config "") busy_world).2 =
    <["WANDB_RUN_GROUP" := "development"]>
      (<["WANDB_PROJECT" := "nyc_airbnb"]> (environ busy_world)) ∧
  (∀ name, name ≠ "WANDB_PROJECT" → name ≠ "WANDB_RUN_GROUP" →
     environ (go (ext := sample_ext) (sample_config "") busy_world).2 !! name
     = environ busy_world !! name) ∧
  ∃ rest,
    trace (ext := sample_ext) (sample_config "") busy_world =
      SetEnv "WANDB_PROJECT" "nyc_airbnb" ::
      SetEnv "WANDB_RUN_GROUP" "development" :: rest ∧
    no_setenv rest.
Proof.
  assert (H1 : cfg (sample_config "") "main" "project_name"
               = Ok (VStr "nyc_airbnb")) by reflexivity.
  assert (H2 : has_nul "nyc_airbnb" = false) by reflexivity.
  assert (H3 : cfg (sample_config "") "main" "experiment_name"
               = Ok (VStr "development")) by reflexivity.
  assert (H4 : has_nul "development" = false) by reflexivity.
  repeat (split; [assumption|]).
  exact (C10_environment_set_first (ext := sample_ext) _ busy_world _ _
           H1 H2 H3 H4).
Defined.

(** ** Concrete executions for the further properties *)

(** X1 on the sample execution under ["all"]. *)
Lemma X1_witness_sample_all :
  env_ready (sample_config "all") "nyc_airbnb" "development" ∧
  active_of (sample_config "all") = Ok _steps ∧
  ∃ evs,
    trace (ext := sample_ext) (sample_config "all") sample_world =
      [SetEnv "WANDB_PROJECT" "nyc_airbnb";
       SetEnv "WANDB_RUN_GROUP" "development";
       MkTemp (@mkdtemp sample_ext
                 (after_env sample_world "nyc_airbnb" "development"))]
      ++ evs
      ++ [RmTemp (@mkdtemp sample_ext
                    (after_env sample_world "nyc_airbnb" "development"))] ∧
    step_events_ok evs ∧
    dispatched (ext := sample_ext) (sample_config "all") sample_world
    = runs_of evs.
Proof.
  assert (H1 : env_ready (sample_config "all") "nyc_airbnb" "development")
    by (repeat split; reflexivity).
  assert (H2 : active_of (sample_config "all") = Ok _steps) by reflexivity.
  split; [exact H1|]. split; [exact H2|].
  exact (X1_temporary_directory_brackets_the_runs (ext := sample_ext)
           _ sample_world _ _ _ H1 H2).
Defined.

(** The platform [moody_ext] runs data_check in other states. *)
Example moody_platform_runs_data_check_elsewhere :
  @mlflow_returns moody_ext sample_world sample_data_check_call = true.
Proof. reflexivity. Qed.

(** X2 on a platform where data_check fails only in the state of this
    execution: it is the third and last run. *)
Lemma X2_witness_state_dependent_failure :
  trace (ext := moody_ext) (sample_config "all") sample_world =
    events_before_data_check
    ++ MlflowRun sample_data_check_call :: [RmTemp "/tmp/tmpq1w2e3"] ∧
  @mlflow_returns moody_ext
    (@world_at moody_ext (sample_config "all") sample_world
       events_before_data_check)
    sample_data_check_call = false ∧
  (go (ext := moody_ext) (sample_config "all") sample_world).1
    = Raise ExecutionException ∧
  last (dispatched (ext := moody_ext) (sample_config "all") sample_world)
    = Some sample_data_check_call ∧
  ∃ d, [RmTemp "/tmp/tmpq1w2e3"] = [RmTemp d].
Proof.
  assert (H1 : trace (ext := moody_ext) (sample_config "all") sample_world =
                 events_before_data_check
                 ++ MlflowRun sample_data_check_call
                    :: [RmTemp "/tmp/tmpq1w2e3"])
    by (vm_compute; reflexivity).
  assert (H2 : @mlflow_returns moody_ext
                 (@world_at moody_ext (sample_config "all") sample_world
                    events_before_data_check)
                 sample_data_check_call = false)
    by (vm_compute; reflexivity).
  split; [exact H1|]. split; [exact H2|].
  exact (X2_failed_run_is_the_last_one (ext := moody_ext) _ _ _ _ _ H1 H2).
Defined.

(** X3 on a configuration without a steps entry. *)
Lemma X3_witness_no_steps_entry :
  env_ready stepless_config "nyc_airbnb" "development" ∧
  (∀ s, cfg stepless_config "main" "steps" ≠ Ok (VStr s)) ∧
  is_ok (go (ext := sample_ext) stepless_config sample_world).1 = false ∧
  (go (ext := sample_ext) stepless_config sample_world).2
    = after_env sample_world "nyc_airbnb" "development" ∧
  dispatched (ext := sample_ext) stepless_config sample_world = [].
Proof.
  assert (H1 : env_ready stepless_config "nyc_airbnb" "development")
    by (repeat split; reflexivity).
  assert (H2 : ∀ s, cfg stepless_config "main" "steps" ≠ Ok (VStr s))
    by (intros s; vm_compute; discriminate).
  split; [exact H1|]. split; [exact H2|].
  exact (X3_bad_steps_value_raises_after_the_environment (ext := sample_ext)
           _ sample_world _ _ H1 H2).
Defined.

(** X4 on a configuration whose project name is a number. *)
Lemma X4_witness_numeric_project_name :
  (∀ p, cfg numeric_project_config "main" "project_name" = Ok (VStr p) →
        has_nul p = true) ∧
  is_ok (go (ext := sample_ext) numeric_project_config busy_world).1 = false ∧
  (go (ext := sample_ext) numeric_project_config busy_world).2 = busy_world.
Proof.
  assert (H1 : ∀ p,
             cfg numeric_project_config "main" "project_name" = Ok (VStr p) →
             has_nul p = true)
    by (intros p H; vm_compute in H; discriminate H).
  split; [exact H1|].
  exact (X4_bad_project_name_changes_nothing (ext := sample_ext) _ busy_world
           H1).
Defined.

(** X5 on a configuration whose experiment name is empty. *)
Lemma X5_witness_empty_experiment_name :
  cfg unnamed_experiment_config "main" "project_name"
    = Ok (VStr "nyc_airbnb") ∧
  has_nul "nyc_airbnb" = false ∧
  (∀ e, cfg unnamed_experiment_config "main" "experiment_name"
          = Ok (VStr e) → has_nul e = true) ∧
  is_ok (go (ext := sample_ext) unnamed_experiment_config sample_world).1
    = false ∧
  (go (ext := sample_ext) unnamed_experiment_config sample_world).2 =
    World (<["WANDB_PROJECT" := "nyc_airbnb"]> (environ sample_world))
          (original_cwd sample_world) (getcwd sample_world)
          (log sample_world ++ [SetEnv "WANDB_PROJECT" "nyc_airbnb"]).
Proof.
  assert (H1 : cfg unnamed_experiment_config "main" "project_name"
               = Ok (VStr "nyc_airbnb")) by reflexivity.
  assert (H2 : has_nul "nyc_airbnb" = false) by reflexivity.
  assert (H3 : ∀ e, cfg unnamed_experiment_config "main" "experiment_name"
                    = Ok (VStr e) → has_nul e = true)
    by (intros e H; vm_compute in H; discriminate H).
  split; [exact H1|]. split; [exact H2|]. split; [exact H3|].
  exact (X5_bad_experiment_name_keeps_the_project (ext := sample_ext)
           _ sample_world _ H1 H2 H3).
Defined.

(** X6 on the sample execution under ["all"]. *)
Lemma X6_witness_sample_train_run :
  call_of (ext := sample_ext) TrainRandomForest (sample_config "all")
    sample_world = Ok sample_train_call ∧
  sample_train_call
    ∈ dispatched (ext := sample_ext) (sample_config "all") sample_world ∧
  ∃ doc pre post,
    cfg (sample_config "all") "modeling" "random_forest" = Ok (VDict doc) ∧
    trace (ext := sample_ext) (sample_config "all") sample_world =
      pre ++ [OpenW (rf_config_path sample_world);
              JsonDump (rf_config_path sample_world) doc;
              MlflowRun sample_train_call] ++ post ∧
    param sample_train_call "rf_config"
      = Some (VStr (rf_config_path sample_world)).
Proof.
  assert (H1 : call_of (ext := sample_ext) TrainRandomForest
                 (sample_config "all") sample_world = Ok sample_train_call)
    by (vm_compute; reflexivity).
  assert (H2 : sample_train_call
                 ∈ dispatched (ext := sample_ext) (sample_config "all")
                     sample_world) by in_list.
  split; [exact H1|]. split; [exact H2|].
  exact (X6_random_forest_config_dumped_before_the_run (ext := sample_ext)
           _ _ _ H1 H2).
Defined.

(** X8 for the run of basic_cleaning in the sample execution. *)
Lemma X8_witness_basic_cleaning :
  sample_basic_cleaning_call
    ∈ dispatched (ext := sample_ext) (sample_config "all") sample_world ∧
  entry_point sample_basic_cleaning_call = "main".
Proof.
  assert (H1 : sample_basic_cleaning_call
                 ∈ dispatched (ext := sample_ext) (sample_config "all")
                     sample_world) by in_list.
  split; [exact H1|].
  exact (X8_entry_point_is_main (ext := sample_ext) _ _ _ H1).
Defined.

(** X9 for the lower price bound of basic_cleaning and data_check. *)
Lemma X9_witness_min_price :
  sample_basic_cleaning_call
    ∈ dispatched (ext := sample_ext) (sample_config "all") sample_world ∧
  sample_data_check_call
    ∈ dispatched (ext := sample_ext) (sample_config "all") sample_world ∧
  "min_price" ∈ shared_parameters ∧
  param sample_basic_cleaning_call "min_price" = Some (VInt 10) ∧
  param sample_data_check_call "min_price" = Some (VInt 10) ∧
  VInt 10 = VInt 10.
Proof.
  assert (H1 : sample_basic_cleaning_call
                 ∈ dispatched (ext := sample_ext) (sample_config "all")
                     sample_world) by in_list.
  assert (H2 : sample_data_check_call
                 ∈ dispatched (ext := sample_ext) (sample_config "all")
                     sample_world) by in_list.
  assert (H3 : "min_price" ∈ shared_parameters) by in_list.
  assert (H4 : param sample_basic_cleaning_call "min_price"
               = Some (VInt 10)) by reflexivity.
  assert (H5 : param sample_data_check_call "min_price" = Some (VInt 10))
    by reflexivity.
  repeat (split; [assumption|]).
  exact (X9_shared_parameters_agree (ext := sample_ext) _ _ _ _ _ _ _
           H1 H2 H3 H4 H5).
Defined.

(** X10: without its [modeling] section the configuration still runs the
    first three steps exactly as the full one does. *)
Lemma X10_witness_no_modeling_section :
  cfg (sample_config "download,basic_cleaning,data_check") "main"
      "project_name"
  = cfg (etl_only_config "download,basic_cleaning,data_check") "main"
      "project_name" ∧
  cfg (sample_config "download,basic_cleaning,data_check") "main"
      "experiment_name"
  = cfg (etl_only_config "download,basic_cleaning,data_check") "main"
      "experiment_name" ∧
  cfg (sample_config "download,basic_cleaning,data_check") "main" "steps"
  = cfg (etl_only_config "download,basic_cleaning,data_check") "main"
      "steps" ∧
  (∀ st sec key,
     st ∈ plan (sample_config "download,basic_cleaning,data_check") →
     (sec, key) ∈ reads st →
     cfg (sample_config "download,basic_cleaning,data_check") sec key
     = cfg (etl_only_config "download,basic_cleaning,data_check") sec key) ∧
  go (ext := sample_ext) (sample_config "download,basic_cleaning,data_check")
    sample_world
  = go (ext := sample_ext)
      (etl_only_config "download,basic_cleaning,data_check") sample_world.
Proof.
  assert (H4 : ∀ st sec key,
     st ∈ plan (sample_config "download,basic_cleaning,data_check") →
     (sec, key) ∈ reads st →
     cfg (sample_config "download,basic_cleaning,data_check") sec key
     = cfg (etl_only_config "download,basic_cleaning,data_check") sec key).
  { intros st sec key Hst Hk. vm_compute in Hst.
    repeat (apply elem_of_cons in Hst as [->|Hst]);
      [| | |by apply elem_of_nil in Hst];
      simpl in Hk;
      repeat (apply elem_of_cons in Hk as [[= -> ->]|Hk]; [reflexivity|]);
      by apply elem_of_nil in Hk. }
  split; [reflexivity|]. split; [reflexivity|]. split; [reflexivity|].
  split; [exact H4|].
  exact (X10_only_active_steps_read_the_configuration (ext := sample_ext)
           (sample_config "download,basic_cleaning,data_check")
           (etl_only_config "download,basic_cleaning,data_check")
           sample_world eq_refl eq_refl eq_refl H4).
Defined.


(** X12 for the run of basic_cleaning in the sample execution. *)
Lemma X12_witness_basic_cleaning :
  local_step BasicCleaning = true ∧
  call_of (ext := sample_ext) BasicCleaning (sample_config "all") sample_world
    = Ok sample_basic_cleaning_call ∧
  uri sample_basic_cleaning_call =
    original_cwd sample_world
    +:+ (if String.eqb (original_cwd sample_world) ""
            || endswith_sep (original_cwd sample_world)
         then "" else "/")
    +:+ "src/" +:+ step_name BasicCleaning.
Proof.
  assert (H1 : local_step BasicCleaning = true) by reflexivity.
  assert (H2 : call_of (ext := sample_ext) BasicCleaning (sample_config "all")
                 sample_world = Ok sample_basic_cleaning_call)
    by (vm_compute; reflexivity).
  split; [exact H1|]. split; [exact H2|].
  exact (X12_location_of_a_local_step (ext := sample_ext) _ _ _ _ H1 H2).
Defined.
